(** * Supply.js: the stage-transition controller of the supply-chain client

    A shallow embedding of [src/client/src/Supply.js]: the payment
    calculator [calculatePayment], the submit handler [handleSubmit], the
    catalog loader [loadBlockchainData] and the part of the render function
    that decides between the loading notice and the catalog.

    JavaScript strings are [string]; big numbers (BN.js) are [Z]; the
    component's React state is a record; the ledger and the wallet are
    oracles over an abstract world state, and every call to them is logged
    in a trace. *)

From Stdlib Require Import ZArith QArith List String Ascii Bool Lia.
Import ListNotations.

Local Open Scope string_scope.
Local Open Scope Z_scope.

(** ** Exceptions *)

(** A thrown JavaScript [Error]: the component only ever reads its
    [message]. *)
Record exn : Type := Error { message : string }.

(** The outcome of an expression that may throw. *)
Inductive result (A : Type) : Type :=
| Ok (a : A)
| Throw (e : exn).
Arguments Ok {A} a.
Arguments Throw {A} e.

Definition bind_result {A B} (r : result A) (k : A -> result B) : result B :=
  match r with
  | Ok a => k a
  | Throw e => Throw e
  end.

Declare Scope result_scope.
Delimit Scope result_scope with result.
Notation "x <- r ;; k" := (bind_result r (fun x => k))
  (at level 61, r at next level, right associativity) : result_scope.

(** ** JavaScript strings *)

Module JsString.

Definition zero_char : ascii := "0"%char.
Definition dot_char : ascii := "."%char.
Definition minus_char : ascii := "-"%char.

(** [c.repeat(n)] for a one-character string. *)
Fixpoint repeat_char (c : ascii) (n : nat) : string :=
  match n with
  | O => ""
  | S n' => String c (repeat_char c n')
  end.

(** [/[0-9]/] *)
Definition is_digit (c : ascii) : bool :=
  let n := N_of_ascii c in ((48 <=? n) && (n <=? 57))%N.

(** [/[1-9]/] *)
Definition is_nonzero_digit (c : ascii) : bool :=
  let n := N_of_ascii c in ((49 <=? n) && (n <=? 57))%N.

(** [/^[0-9]*$/] *)
Fixpoint all_digits (s : string) : bool :=
  match s with
  | "" => true
  | String c s' => is_digit c && all_digits s'
  end.

(** [/^[0-9.]*$/] *)
Fixpoint all_digits_or_dots (s : string) : bool :=
  match s with
  | "" => true
  | String c s' => (is_digit c || Ascii.eqb c dot_char) && all_digits_or_dots s'
  end.

(** [s.split('.')]: the pieces between the dots, never an empty list. *)
Fixpoint split_dot (s : string) : list string :=
  match s with
  | "" => [""]
  | String c s' =>
      if Ascii.eqb c dot_char then "" :: split_dot s'
      else match split_dot s' with
           | piece :: rest => String c piece :: rest
           | [] => [String c ""]
           end
  end.

(** [s.padEnd(n, '0')], written in the source of ethjs-unit as
    [while (s.length < n) s += '0']. *)
Definition pad_end_zeros (n : nat) (s : string) : string :=
  s ++ repeat_char zero_char (n - String.length s).

(** [while (s.length < n) s = '0' + s]. *)
Definition pad_start_zeros (n : nat) (s : string) : string :=
  repeat_char zero_char (n - String.length s) ++ s.

(** [s.substring(0, 1) === c] *)
Definition starts_with (c : ascii) (s : string) : bool :=
  match s with
  | String c' _ => Ascii.eqb c' c
  | "" => false
  end.

(** [s.substring(1)] *)
Definition tail (s : string) : string :=
  match s with
  | String _ s' => s'
  | "" => ""
  end.

(** The leading run of decimal digits of [s]. *)
Fixpoint digit_run (s : string) : string :=
  match s with
  | "" => ""
  | String c s' => if is_digit c then String c (digit_run s') else ""
  end.

(** The longest prefix of a digit string that ends in a digit of 1-9;
    empty when there is none. *)
Fixpoint upto_last_nonzero (s : string) : string :=
  match s with
  | "" => ""
  | String c s' =>
      match upto_last_nonzero s' with
      | "" => if is_nonzero_digit c then String c "" else ""
      | r => String c r
      end
  end.

End JsString.
Import JsString.

(** ** Big numbers (BN.js) as [Z] *)

(** Modelled from the spec: BN.js, the library of the integers behind
    [Web3.utils.toBN], is not part of the sources; the spec asks for
    "unsigned, arbitrary-precision (non-floating-point) integer
    arithmetic".  A big number is a [Z]; what is modelled here is how one
    is read from decimal digits and printed. *)
Module BN.

Definition digit_val (c : ascii) : Z := Z.of_N (N_of_ascii c) - 48.

Definition digit_char (d : Z) : ascii := ascii_of_N (Z.to_N (d + 48)).

(** [new BN(s, 10)] on a string of decimal digits: a left fold. *)
Fixpoint parse_digits (s : string) (acc : Z) : Z :=
  match s with
  | "" => acc
  | String c s' => parse_digits s' (acc * 10 + digit_val c)
  end.

(** The decimal digits of [n >= 0] in front of [acc], most significant
    first; [fuel] bounds the number of digits. *)
Fixpoint to_digits (fuel : nat) (n : Z) (acc : string) : string :=
  match fuel with
  | O => acc
  | S fuel' =>
      let acc' := String (digit_char (n mod 10)) acc in
      if n / 10 =? 0 then acc' else to_digits fuel' (n / 10) acc'
  end.

(** A number below [2^k] has at most [k] decimal digits. *)
Definition digits_fuel (n : Z) : nat := S (Z.to_nat (Z.log2 n)).

(** [bn.toString(10)] *)
Definition toString (z : Z) : string :=
  if z <? 0 then String minus_char (to_digits (digits_fuel (- z)) (- z) "")
  else to_digits (digits_fuel z) z "".

End BN.

(** ** The web3 utilities used by the component *)

Module Web3Utils.

(** Modelled from the spec: the library behind [Web3.utils] (imported at
    Supply.js:3, web3 1.x with ethjs-unit and number-to-bn) is not part
    of the sources.  The spec describes the conversion as the one that
    "converts a human-scale decimal price into the ledger's minor-unit
    integer representation using the ledger's fixed exponent (18 decimal
    places)"; the definitions below follow the library's algorithm for
    that conversion and its inverse on decimal spellings. *)

(** The value of the unit ['ether'] in wei, and the length of its
    fractional part. *)
Definition ether_base : Z := 10 ^ 18.
Definition ether_decimals : nat := 18.

Definition invalid_number_msg (s : string) : string :=
  "[number-to-bn] while converting number " ++ s ++
  " to BN.js instance, error: invalid number value.".

(** Modelled from the spec: [numberToBN] (package number-to-bn) on the
    decimal spellings of integers, an optional minus sign and decimal
    digits; the empty string is read as zero.  Every string that the
    component converts is spelled so: it comes from the ABI decoder or
    from [BN.toString].  The other spellings that the library reads,
    hexadecimal among them, are not modelled and end in the error
    branch. *)
Definition numberToBN (s : string) : result Z :=
  match s with
  | String c s' =>
      if Ascii.eqb c minus_char then
        if all_digits s' then Ok (BN.parse_digits s' 0 * -1)
        else Throw (Error (invalid_number_msg s))
      else if all_digits s then Ok (BN.parse_digits s 0)
      else Throw (Error (invalid_number_msg s))
  | "" => Ok 0
  end.

Definition quote_char : ascii := ascii_of_nat 34.

(** Modelled from the spec: [Web3.utils.toBN], which is [numberToBN]
    with the given value added to the message of an error. *)
Definition toBN (s : string) : result Z :=
  match numberToBN s with
  | Ok z => Ok z
  | Throw e =>
      Throw (Error ("Error: " ++ message e ++ " Given value: "
                    ++ String quote_char (s ++ String quote_char "")))
  end.

Definition toWei_msg (s why : string) : string :=
  "[ethjs-unit] while converting number " ++ s ++ " to wei, " ++ why.

(** Modelled from the spec: the end of [toWei], from the pieces around
    the decimal point to the amount in wei. *)
Definition wei_of_components (s : string) (negative : bool) (comps : list string)
  : result string :=
  match comps with
  | _ :: _ :: _ :: _ => Throw (Error (toWei_msg s "too many decimal points"))
  | _ =>
      let whole := match comps with
                   | w :: _ => if (w =? "")%string then "0" else w
                   | [] => "0"
                   end in
      let fraction := match comps with
                      | _ :: f :: _ => if (f =? "")%string then "0" else f
                      | _ => "0"
                      end in
      if (ether_decimals <? String.length fraction)%nat then
        Throw (Error (toWei_msg s "too many decimal places"))
      else
        let fraction := pad_end_zeros ether_decimals fraction in
        let wei := BN.parse_digits whole 0 * ether_base + BN.parse_digits fraction 0 in
        let wei := if negative then wei * -1 else wei in
        Ok (BN.toString wei)
  end.

(** Modelled from the spec: [Web3.utils.toWei(s, 'ether')] on a string.
    The number must match [/^-?[0-9.]+$/]; it is split at the decimal
    point, the fraction (at most 18 digits) is padded with zeros on the
    right, and the result is [whole * 10^18 + fraction], printed in
    decimal. *)
Definition toWei (s : string) : result string :=
  let negative := starts_with minus_char s in
  let ether := if negative then tail s else s in
  if negb (all_digits_or_dots ether) || (ether =? "")%string then
    Throw (Error ("while converting number to string, invalid number value '"
                  ++ s ++ "', should be a number matching (^-?[0-9.]+)."))
  else if (ether =? ".")%string then Throw (Error (toWei_msg s "invalid value"))
  else wei_of_components s negative (split_dot ether).

(** Modelled from the spec: a step of [fromWei], the first group of the
    regular expression that ethjs-unit matches against the fraction
    (digits ending in a digit of 1-9, or a single zero, followed by
    zeros): the fraction without its trailing zeros, or ["0"] when it is
    all zeros.  Without a leading digit there is no match. *)
Definition fraction_group (fraction : string) : result string :=
  let run := digit_run fraction in
  match upto_last_nonzero run with
  | "" => match run with
          | String _ _ => Ok "0"
          | "" => Throw (Error "Cannot read properties of null (reading '1')")
          end
  | r => Ok r
  end.

(** Modelled from the spec: [Web3.utils.fromWei(s, 'ether')] on a string:
    the whole part, and after a decimal point the 18-digit fraction
    without its trailing zeros, left out altogether when it is zero. *)
Definition fromWei (s : string) : result string :=
  (wei <- numberToBN s ;;
   let negative := wei <? 0 in
   let wei := if negative then wei * -1 else wei in
   let fraction := pad_start_zeros ether_decimals (BN.toString (wei mod ether_base)) in
   fraction <- fraction_group fraction ;;
   let whole := BN.toString (wei / ether_base) in
   let value := whole ++ (if (fraction =? "0")%string then "" else String dot_char fraction) in
   Ok (if negative then String minus_char value else value))%result.

End Web3Utils.

(** ** PaymentCalculator: [calculatePayment], Supply.js:77-81 *)

(** [price.toString()] is the identity: the only caller passes the string
    that [fromWei] returned. *)
Definition calculatePayment (price quantity : string) : result string :=
  (priceInWei <- Web3Utils.toWei price ;;
   p <- Web3Utils.toBN priceInWei ;;
   q <- Web3Utils.toBN quantity ;;
   let paymentAmount := p * q in
   Ok (BN.toString paymentAmount))%result.

(** ** Decimal prices *)

(** A price in major units as it is written: the digits before the decimal
    point and the digits after it; without a fraction there is no point. *)
Record Decimal : Type :=
  { whole : string;
    fraction : string }.

Definition spelling (p : Decimal) : string :=
  if (fraction p =? "")%string then whole p
  else whole p ++ String dot_char (fraction p).

(** A non-negative decimal number that the 18 decimal places of the
    currency can hold. *)
Definition valid_price (p : Decimal) : bool :=
  all_digits (whole p) && negb (whole p =? "")%string
  && all_digits (fraction p)
  && (String.length (fraction p) <=? Web3Utils.ether_decimals)%nat.

(** The number that a string of digits denotes, by the positions of its
    digits. *)
Fixpoint positional_value (s : string) : Z :=
  match s with
  | "" => 0
  | String c s' => BN.digit_val c * 10 ^ Z.of_nat (String.length s') + positional_value s'
  end.

(** The number that the spelling denotes: the digits before the point,
    plus the digits after it over the power of ten of their count. *)
Definition decimal_value (p : Decimal) : Q :=
  inject_Z (positional_value (whole p))
  + inject_Z (positional_value (fraction p))
    / inject_Z (10 ^ Z.of_nat (String.length (fraction p))).

(** After the words of the spec, not the code: the price "in the ledger's
    minor-unit integer representation using the ledger's fixed exponent",
    the price times [10^18]. *)
Definition scaleToMinorUnits (p : Decimal) : Q :=
  decimal_value p * inject_Z (10 ^ 18).

(** The amount in wei of a valid price: the whole part times [10^18] plus
    the fraction, padded to 18 digits. *)
Definition wei_of_price (p : Decimal) : Z :=
  BN.parse_digits (whole p) 0 * Web3Utils.ether_base
  + BN.parse_digits (fraction p) 0
    * 10 ^ Z.of_nat (Web3Utils.ether_decimals - String.length (fraction p)).

(** A decimal price taken apart at its point: what is written before it
    and what is written after it.  More than one point gives nothing. *)
Definition decimal_of (s : string) : option Decimal :=
  match split_dot s with
  | [w] => Some {| whole := w; fraction := "" |}
  | [w; f] => Some {| whole := w; fraction := f |}
  | _ => None
  end.

(** A well-formed non-negative decimal number: digits with at most one
    point among them, and at least one digit.  The digits before the
    point, or those after it, may be missing, as in [.5] and [5.]. *)
Definition well_formed_decimal (s : string) : bool :=
  match decimal_of s with
  | Some p =>
      all_digits (whole p) && all_digits (fraction p)
      && negb ((whole p =? "")%string && (fraction p =? "")%string)
  | None => false
  end.

(** ** JavaScript numbers *)

(** The Number values that [parseInt] can return.  [Num z] is the double
    whose value is the integer [z]. *)
Inductive JsNumber : Type :=
| NaN
| Num (z : Z)
| Infinity (negative : bool).

(** The double nearest to an integer: exact below [2^53], otherwise 53
    significant bits, ties to even, and infinite from [2^1024] on. *)
Definition round_to_double (z : Z) : JsNumber :=
  let a := Z.abs z in
  if a <? 2 ^ 53 then Num z
  else
    let e := Z.log2 a - 52 in
    let q := a / 2 ^ e in
    let r := a mod 2 ^ e in
    let half := 2 ^ (e - 1) in
    let q' := if r <? half then q
              else if half <? r then q + 1
              else if Z.even q then q else q + 1 in
    let m := q' * 2 ^ e in
    if 2 ^ 1024 <=? m then Infinity (z <? 0) else Num (Z.sgn z * m).

(** White space that [parseInt] skips, among the code units below 256. *)
Definition is_white_space (c : ascii) : bool :=
  let n := N_of_ascii c in
  (((9 <=? n) && (n <=? 13)) || (n =? 32) || (n =? 160))%N.

Fixpoint trim_start (s : string) : string :=
  match s with
  | String c s' => if is_white_space c then trim_start s' else s
  | "" => ""
  end.

(** [parseInt(s, 10)]: leading white space is skipped, a sign is read, and
    the longest run of decimal digits that follows is the value; whatever
    comes after the digits is ignored.  Without a digit the result is
    [NaN]. *)
Definition parseInt (s : string) : JsNumber :=
  let s1 := trim_start s in
  let sign := if starts_with minus_char s1 then -1 else 1 in
  let s2 := if starts_with minus_char s1 || starts_with "+"%char s1
            then tail s1 else s1 in
  let digits := digit_run s2 in
  if (digits =? "")%string then NaN
  else round_to_double (sign * BN.parse_digits digits 0).

(** The digits that [parseInt] reads in [s]. *)
Definition leading_digits (s : string) : string :=
  let s1 := trim_start s in
  digit_run (if starts_with minus_char s1 || starts_with "+"%char s1
             then tail s1 else s1).

Definition isNaN (n : JsNumber) : bool :=
  match n with
  | NaN => true
  | _ => false
  end.

(** ** JavaScript objects keyed by integers *)

(** [med] and [medStage] are plain objects whose property names are the
    product ids.  An object enumerates its integer keys (array indices) in
    ascending numeric order, whatever the order of insertion, so the
    object is kept as an association list sorted by key. *)
Module JsObject.

Definition t (V : Type) : Type := list (Z * V).

Definition empty {V : Type} : t V := [].

(** [o[k] = v] *)
Fixpoint set {V : Type} (k : Z) (v : V) (o : t V) : t V :=
  match o with
  | [] => [(k, v)]
  | (k', v') :: o' =>
      if k <? k' then (k, v) :: o
      else if k =? k' then (k, v) :: o'
      else (k', v') :: set k v o'
  end.

(** [o[k]] *)
Fixpoint get {V : Type} (k : Z) (o : t V) : option V :=
  match o with
  | [] => None
  | (k', v') :: o' => if k =? k' then Some v' else get k o'
  end.

(** [Object.keys(o)] *)
Definition keys {V : Type} (o : t V) : list Z := map fst o.

End JsObject.

(** ** Products *)

(** The struct that the contract keeps for a product: its integers are
    [uint256]. *)
Module Stock.
Record t : Type := make
  { id : N;
    name : string;
    destinationCompanyName : string;
    price : N;
    quantity : N;
    expirationDate : N;
    timestamp : N }.
End Stock.

(** The JavaScript object that a read of [MedicineStock] resolves to: the
    ABI decoder hands every [uint256] over as its decimal string. *)
Module Medicine.
Record t : Type := make
  { id : string;
    name : string;
    destinationCompanyName : string;
    price : string;
    quantity : string;
    expirationDate : string;
    timestamp : string }.
End Medicine.

Definition uint_string (n : N) : string := BN.toString (Z.of_N n).

Definition decode (m : Stock.t) : Medicine.t :=
  {| Medicine.id := uint_string (Stock.id m);
     Medicine.name := Stock.name m;
     Medicine.destinationCompanyName := Stock.destinationCompanyName m;
     Medicine.price := uint_string (Stock.price m);
     Medicine.quantity := uint_string (Stock.quantity m);
     Medicine.expirationDate := uint_string (Stock.expirationDate m);
     Medicine.timestamp := uint_string (Stock.timestamp m) |}.

(** The options of a write: [{ from, gas, value }]. *)
Record SendOptions : Type :=
  { from : option string;
    gas : Z;
    value : string }.

Record Receipt : Type := { transactionHash : string }.

(** The four forms of the page, in order: the method name each of them
    passes to [handleSubmit] (Supply.js:177, 194, 211, 228). *)
Definition form_operations : list string :=
  ["startManufacturing"; "startShipping"; "startDistribution"; "storeInWarehouse"].

(** The fallback gas limit of Supply.js:111. *)
Definition fallback_gas : Z := 3000000.

Definition not_deployed_msg : string :=
  "The smart contract is not deployed to the current network".

(** The message of the [TypeError] that reading a property of [undefined]
    raises. *)
Definition undefined_msg (property : string) : string :=
  "Cannot read properties of undefined (reading '" ++ property ++ "')".

(** ** The ledger, the wallet and the component *)

Section Component.

(** The state of everything outside the component: the ledger, the
    provider and the wallet.  A call to a collaborator answers from the
    current world and may change it. *)
Context {World : Type}.

Definition oracle (A : Type) : Type := World -> result A * World.

(** What [supplyChain.methods[name]] holds: a function from the product
    id to a transaction object, of which the component uses
    [estimateGas] and [send]. *)
Record Method : Type :=
  { estimateGas : JsNumber -> option string -> oracle Z;
    send : JsNumber -> SendOptions -> oracle Receipt }.

(** The contract object: the three reads that the component calls by
    name, and the table that [handleSubmit] indexes by [methodName]. *)
Record Contract : Type :=
  { medicineCtr_call : oracle N;
    MedicineStock_call : JsNumber -> oracle Stock.t;
    showStage_call : JsNumber -> oracle string;
    methods : string -> option Method }.

(** [window.web3], once [loadWeb3] has set it. *)
Record Web3 : Type :=
  { getAccounts : oracle (list string);
    getId : oracle Z;
    eth_Contract : string -> Contract }.

(** [window.ethereum] *)
Record Ethereum : Type :=
  { request_eth_requestAccounts : oracle (list string) }.

(** The globals that the component reads: [window.web3],
    [window.ethereum], and the [networks] table of the imported artifact
    [SupplyChain.json], which gives the address of the contract on a
    network. *)
Record Env : Type :=
  { window_web3 : option Web3;
    window_ethereum : option Ethereum;
    SupplyChainABI_networks : Z -> option string }.

(** The React state of [Supply] (Supply.js:15-21). *)
Record ViewState : Type :=
  { currentAccount : option string;
    loader : bool;
    supplyChain : option Contract;
    medData : JsObject.t Medicine.t;
    medStage : JsObject.t string;
    id : string;
    error : string }.

Definition initial_state : ViewState :=
  {| currentAccount := Some "";
     loader := true;
     supplyChain := None;
     medData := JsObject.empty;
     medStage := JsObject.empty;
     id := "";
     error := "" |}.

(** The calls of the state setters. *)
Inductive Update : Type :=
| setCurrentAccount (a : option string)
| setLoader (b : bool)
| setSupplyChain (c : Contract)
| setMedData (d : JsObject.t Medicine.t)
| setMedStage (d : JsObject.t string)
| setId (s : string)
| setError (s : string).

Definition apply_update (u : Update) (st : ViewState) : ViewState :=
  match u with
  | setCurrentAccount a =>
      {| currentAccount := a; loader := loader st; supplyChain := supplyChain st;
         medData := medData st; medStage := medStage st; id := id st; error := error st |}
  | setLoader b =>
      {| currentAccount := currentAccount st; loader := b; supplyChain := supplyChain st;
         medData := medData st; medStage := medStage st; id := id st; error := error st |}
  | setSupplyChain c =>
      {| currentAccount := currentAccount st; loader := loader st; supplyChain := Some c;
         medData := medData st; medStage := medStage st; id := id st; error := error st |}
  | setMedData d =>
      {| currentAccount := currentAccount st; loader := loader st; supplyChain := supplyChain st;
         medData := d; medStage := medStage st; id := id st; error := error st |}
  | setMedStage d =>
      {| currentAccount := currentAccount st; loader := loader st; supplyChain := supplyChain st;
         medData := medData st; medStage := d; id := id st; error := error st |}
  | setId s =>
      {| currentAccount := currentAccount st; loader := loader st; supplyChain := supplyChain st;
         medData := medData st; medStage := medStage st; id := s; error := error st |}
  | setError s =>
      {| currentAccount := currentAccount st; loader := loader st; supplyChain := supplyChain st;
         medData := medData st; medStage := medStage st; id := id st; error := s |}
  end.

(** Everything the component does that can be observed from outside, in
    the order in which it happens. *)
Inductive Event : Type :=
| EvGetAccounts
| EvGetId
| EvMedicineCtr
| EvMedicineStock (medId : JsNumber)
| EvShowStage (medId : JsNumber)
| EvRequestAccounts
| EvEstimateGas (methodName : string) (productId : JsNumber) (account : option string)
| EvSend (methodName : string) (productId : JsNumber) (options : SendOptions)
| EvAlert (text : string)
| EvConsoleError (label : string) (e : exn)
| EvConsoleLog (label : string) (result : Receipt)
| EvPreventDefault
| EvSetState (u : Update).

Record Machine : Type :=
  { world : World;
    trace : list Event;
    view : ViewState }.

(** An asynchronous function body: it runs on a machine, may throw, and
    leaves a machine. *)
Definition M (A : Type) : Type := Machine -> result A * Machine.

Definition ret {A} (a : A) : M A := fun m => (Ok a, m).

Definition throw {A} (e : exn) : M A := fun m => (Throw e, m).

Definition bind {A B} (c : M A) (k : A -> M B) : M B :=
  fun m => match c m with
           | (Ok a, m') => k a m'
           | (Throw e, m') => (Throw e, m')
           end.

(** [try { body } catch (error) { handler }] *)
Definition try_catch {A} (body : M A) (handler : exn -> M A) : M A :=
  fun m => match body m with
           | (Ok a, m') => (Ok a, m')
           | (Throw e, m') => handler e m'
           end.

Definition emit (ev : Event) : M unit :=
  fun m => (Ok tt, {| world := world m; trace := trace m ++ [ev]; view := view m |}).

(** A state setter: the call is logged and the state is updated. *)
Definition set_state (u : Update) : M unit :=
  fun m => (Ok tt, {| world := world m;
                      trace := trace m ++ [EvSetState u];
                      view := apply_update u (view m) |}).

(** [await] of a call to a collaborator. *)
Definition await {A} (ev : Event) (o : oracle A) : M A :=
  fun m => let (r, w) := o (world m) in
           (r, {| world := w; trace := trace m ++ [ev]; view := view m |}).

(** A pure library call that may throw. *)
Definition lift {A} (r : result A) : M A := fun m => (r, m).

(** Reading a property of a global that may be [undefined]. *)
Definition defined {A} (o : option A) (property : string) : M A :=
  match o with
  | Some a => ret a
  | None => throw (Error (undefined_msg property))
  end.

End Component.

Arguments Method : clear implicits.
Arguments Contract : clear implicits.
Arguments Web3 : clear implicits.
Arguments Ethereum : clear implicits.
Arguments Env : clear implicits.
Arguments ViewState : clear implicits.
Arguments Update : clear implicits.
Arguments Event : clear implicits.
Arguments Machine : clear implicits.
Arguments M : clear implicits.
Arguments oracle : clear implicits.

Declare Scope machine_scope.
Delimit Scope machine_scope with machine.
Notation "x <- c ;; k" := (bind c (fun x => k))
  (at level 61, c at next level, right associativity) : machine_scope.
Notation "c ;;; k" := (bind c (fun _ => k))
  (at level 61, right associativity) : machine_scope.

Section Supply.

Context {World : Type}.

Local Open Scope machine_scope.

(** *** ProductCatalogLoader: [loadBlockchainData], Supply.js:34-59 *)

(** The loop of Supply.js:48-52, [for (let i = 0; i < medCtr; i++)], with
    [remaining] the number of iterations still to run, [medCtr - i].
    [medCtr] arrives as the decimal string of a [uint256] and the
    comparison converts it to a Number; the counter and the ids stay in the
    range where a Number counts exactly. *)
Fixpoint load_stock (supplychain : Contract World) (remaining : nat) (i : Z)
    (med : JsObject.t Medicine.t) (medStage : JsObject.t string)
  : M World (JsObject.t Medicine.t * JsObject.t string) :=
  match remaining with
  | O => ret (med, medStage)
  | S remaining' =>
      let medId := i + 1 in
      stock <- await (EvMedicineStock (Num medId))
                     (MedicineStock_call supplychain (Num medId)) ;;
      stage <- await (EvShowStage (Num medId))
                     (showStage_call supplychain (Num medId)) ;;
      load_stock supplychain remaining' (i + 1)
                 (JsObject.set medId (decode stock) med)
                 (JsObject.set medId stage medStage)
  end.

Definition loadBlockchainData (env : Env World) : M World unit :=
  set_state (setLoader true) ;;;
  web3 <- defined (window_web3 env) "eth" ;;
  accounts <- await EvGetAccounts (getAccounts web3) ;;
  let account := hd_error accounts in
  set_state (setCurrentAccount account) ;;;
  networkId <- await EvGetId (getId web3) ;;
  let networkData := SupplyChainABI_networks env networkId in
  match networkData with
  | Some address =>
      let supplychain := eth_Contract web3 address in
      set_state (setSupplyChain supplychain) ;;;
      medCtr <- await EvMedicineCtr (medicineCtr_call supplychain) ;;
      loaded <- load_stock supplychain (N.to_nat medCtr) 0
                           JsObject.empty JsObject.empty ;;
      set_state (setMedData (fst loaded)) ;;;
      set_state (setMedStage (snd loaded)) ;;;
      set_state (setLoader false)
  | None => emit (EvAlert not_deployed_msg)
  end.

(** *** Rendering, Supply.js:61-67 and 138-245 *)

(** What the component shows: the loading notice, or the page with the
    account, one table row per key of [medData] (the product and its
    stage; the formatting of the cells is left out), the four forms and
    the error line, which is shown when [error] is not empty. *)
Inductive Page : Type :=
| Loading
| Catalog (account : option string)
          (rows : list (Z * option Medicine.t * option string))
          (forms : list string)
          (errorLine : option string).

Definition render (st : ViewState World) : Page :=
  if loader st then Loading
  else Catalog (currentAccount st)
               (map (fun key => (key, JsObject.get key (medData st),
                                 JsObject.get key (medStage st)))
                    (JsObject.keys (medData st)))
               form_operations
               (if (error st =? "")%string then None else Some (error st)).

(** *** TransitionOrchestrator: [handleSubmit], Supply.js:83-128 *)

(** The body of the [try] block, Supply.js:88-123.  [st] holds the state
    that the handler closed over when the page was rendered. *)
Definition handleSubmit_try (env : Env World) (st : ViewState World)
    (methodName : string) : M World unit :=
  let productId := parseInt (id st) in
  if isNaN productId then throw (Error "Invalid Product ID")
  else
    contract <- defined (supplyChain st) "methods" ;;
    match methods contract methodName with
    | None =>
        throw (Error ("Method " ++ methodName ++
                      " does not exist on the smart contract."))
    | Some method =>
        stock <- await (EvMedicineStock productId)
                       (MedicineStock_call contract productId) ;;
        let product := decode stock in
        price <- lift (Web3Utils.fromWei (Medicine.price product)) ;;
        let quantity := Medicine.quantity product in
        paymentAmount <- lift (calculatePayment price quantity) ;;
        ethereum <- defined (window_ethereum env) "request" ;;
        accounts <- await EvRequestAccounts (request_eth_requestAccounts ethereum) ;;
        let account := hd_error accounts in
        gasEstimate <-
          try_catch
            (await (EvEstimateGas methodName productId account)
                   (estimateGas method productId account))
            (fun error =>
               emit (EvConsoleError "Gas estimation failed:" error) ;;;
               ret fallback_gas) ;;
        let options := {| from := account; gas := gasEstimate;
                          value := paymentAmount |} in
        result <- await (EvSend methodName productId options)
                        (send method productId options) ;;
        emit (EvConsoleLog ("Successfully called " ++ methodName ++ " with result:")
                           result) ;;;
        emit (EvAlert ("Successfully called " ++ methodName ++ " with result: "
                       ++ transactionHash result)) ;;;
        set_state (setId "")
    end.

Definition handleSubmit (env : Env World) (st : ViewState World)
    (methodName : string) : M World unit :=
  emit EvPreventDefault ;;;
  set_state (setError "") ;;;
  try_catch
    (handleSubmit_try env st methodName)
    (fun error =>
       emit (EvConsoleError ("Error in " ++ methodName ++ ":") error) ;;;
       set_state (setError ("Error in " ++ methodName ++ ": " ++ message error))).

(** A machine at rest: the world, the displayed state and an empty
    trace. *)
Definition machine_at (w : World) (st : ViewState World) : Machine World :=
  {| world := w; trace := []; view := st |}.

(** The user submits one of the forms on the page that shows [st]. *)
Definition submit (env : Env World) (w : World) (st : ViewState World)
    (methodName : string) : Machine World :=
  snd (handleSubmit env st methodName (machine_at w st)).

(** The [try] block of that submission, run after the two statements
    that come before it: what it returns or throws, and the machine it
    leaves for the [catch] clause. *)
Definition attempt (env : Env World) (w : World) (st : ViewState World)
    (methodName : string) : result unit * Machine World :=
  handleSubmit_try env st methodName
    (snd ((emit EvPreventDefault ;;; set_state (setError "")) (machine_at w st))).

(** The component loads the catalog over the state [st]. *)
Definition load (env : Env World) (w : World) (st : ViewState World)
  : result unit * Machine World :=
  loadBlockchainData env (machine_at w st).

(** *** Reading a trace *)

Definition is_write (ev : Event World) : bool :=
  match ev with
  | EvSend _ _ _ => true
  | _ => false
  end.

(** A call to the ledger, read or write, or to the wallet. *)
Definition is_ledger_call (ev : Event World) : bool :=
  match ev with
  | EvGetAccounts | EvGetId | EvMedicineCtr | EvMedicineStock _ | EvShowStage _
  | EvRequestAccounts | EvEstimateGas _ _ _ | EvSend _ _ _ => true
  | _ => false
  end.

(** A read of the catalog, as [loadBlockchainData] issues them. *)
Definition is_catalog_read (ev : Event World) : bool :=
  match ev with
  | EvMedicineCtr | EvMedicineStock _ | EvShowStage _ => true
  | _ => false
  end.

(** A change or a reload of the catalog: a setter of [medData] or
    [medStage], or one of the two reads that only the loader issues. *)
Definition touches_catalog (ev : Event World) : bool :=
  match ev with
  | EvSetState (setMedData _) | EvSetState (setMedStage _)
  | EvMedicineCtr | EvShowStage _ => true
  | _ => false
  end.

(** The ids that [count] iterations of the loop visit when it stands at
    [i]: [i + 1], [i + 2], ... *)
Fixpoint ids_from (i : Z) (count : nat) : list Z :=
  match count with
  | O => []
  | S count' => (i + 1) :: ids_from (i + 1) count'
  end.

(** For each id, the read of the product and then the read of its
    stage. *)
Definition paired_reads (ids : list Z) : list (Event World) :=
  flat_map (fun medId => [EvMedicineStock (Num medId); EvShowStage (Num medId)]) ids.

(** The ledger answers the reads of [count] products, the ones after id
    [i], as the loop issues them: for each id the product and then its
    stage, each read on the ledger as the read before left it.
    [answers] are the products and stages it returns, in order. *)
Inductive catalog_reads (supplychain : Contract World)
  : Z -> nat -> World -> list (Stock.t * string) -> World -> Prop :=
| reads_done (i : Z) (w : World) : catalog_reads supplychain i O w [] w
| reads_next (i : Z) (count : nat) (w w1 w2 w3 : World)
    (stock : Stock.t) (stage : string) (answers : list (Stock.t * string)) :
    MedicineStock_call supplychain (Num (i + 1)) w = (Ok stock, w1) ->
    showStage_call supplychain (Num (i + 1)) w1 = (Ok stage, w2) ->
    catalog_reads supplychain (i + 1) count w2 answers w3 ->
    catalog_reads supplychain i (S count) w ((stock, stage) :: answers) w3.

(** What the user gets to see as a message: an alert, or an error line
    that is not empty. *)
Definition user_message (ev : Event World) : option string :=
  match ev with
  | EvAlert text => Some text
  | EvSetState (setError s) => if (s =? "")%string then None else Some s
  | _ => None
  end.

Fixpoint user_messages (t : list (Event World)) : list string :=
  match t with
  | [] => []
  | ev :: t' => match user_message ev with
                | Some s => s :: user_messages t'
                | None => user_messages t'
                end
  end.

(** The values attached to the writes of a trace. *)
Fixpoint sent_values (t : list (Event World)) : list string :=
  match t with
  | [] => []
  | EvSend _ _ options :: t' => value options :: sent_values t'
  | _ :: t' => sent_values t'
  end.

(** The gas limits of the writes of a trace. *)
Fixpoint sent_gas (t : list (Event World)) : list Z :=
  match t with
  | [] => []
  | EvSend _ _ options :: t' => gas options :: sent_gas t'
  | _ :: t' => sent_gas t'
  end.

End Supply.

(** ** The page in use *)

Section Session.

Context {World : Type}.

(** [handleIdChange], Supply.js:73-75: the id field takes the text that
    was typed, [event.target.value]. *)
Definition handleIdChange (text : string) : M World unit :=
  set_state (setId text).

(** What the user can do on the page that the machine shows.  The input
    and the forms are part of the catalog page only (Supply.js:61-67 and
    175-241): while the loading notice is shown there is nothing to type
    into and nothing to submit.  A form submits the method name that is
    written into it.  Handlers run one after the other, each on the state
    that the page shows. *)
Inductive user_step (env : Env World) : Machine World -> Machine World -> Prop :=
| type_id (m : Machine World) (text : string)
    (account : option string) (rows : list (Z * option Medicine.t * option string))
    (forms : list string) (errorLine : option string) :
    render (view m) = Catalog account rows forms errorLine ->
    user_step env m (snd (handleIdChange text m))
| submit_form (m : Machine World) (methodName : string)
    (account : option string) (rows : list (Z * option Medicine.t * option string))
    (forms : list string) (errorLine : option string) :
    render (view m) = Catalog account rows forms errorLine ->
    In methodName forms ->
    user_step env m (snd (handleSubmit env (view m) methodName m)).

(** Any number of such steps. *)
Inductive user_steps (env : Env World) : Machine World -> Machine World -> Prop :=
| steps_done (m : Machine World) : user_steps env m m
| steps_more (m m' m'' : Machine World) :
    user_steps env m m' -> user_step env m' m'' -> user_steps env m m''.

(** The component is mounted (Supply.js:10-13): the catalog is loaded over
    the initial state, whether the load completes or not. *)
Definition mounted (env : Env World) (w : World) : Machine World :=
  snd (load env w initial_state).

(** The method names of the writes of a trace. *)
Fixpoint sent_methods (t : list (Event World)) : list string :=
  match t with
  | [] => []
  | EvSend methodName _ _ :: t' => methodName :: sent_methods t'
  | _ :: t' => sent_methods t'
  end.

(** A call that only a submission makes: the request for the accounts of
    the wallet, an estimate, a write. *)
Definition is_submit_call (ev : Event World) : bool :=
  match ev with
  | EvRequestAccounts | EvEstimateGas _ _ _ | EvSend _ _ _ => true
  | _ => false
  end.

End Session.

(** ** A small ledger to run the component on *)

Module Demo.

(** The world is the stock that the contract holds; the product with id
    [k] is the [k]-th entry. *)
Definition World : Type := list Stock.t.

Definition answer {A} (a : A) : oracle World A := fun w => (Ok a, w).

Definition revert {A} (reason : string) : oracle World A :=
  fun w => (Throw (Error reason), w).

Definition aspirin : Stock.t :=
  Stock.make 1 "Aspirin" "Acme" 2000000000000000000 5 1900000000 1700000000.

Definition insulin : Stock.t :=
  Stock.make 2 "Insulin" "Borealis" 1500000000000000000 1000000 1900000000 1700000100.

Definition serum : Stock.t :=
  Stock.make 3 "Serum" "Cobalt" 1 7 1900000000 1700000200.

Definition stock : World := [aspirin; insulin; serum].

Definition no_stock : Stock.t := Stock.make 0 "" "" 0 0 0 0.

(** A public mapping answers with the zero struct where nothing is
    stored. *)
Definition lookup (productId : JsNumber) (w : World) : option Stock.t :=
  match productId with
  | Num z => if 1 <=? z then nth_error w (Z.to_nat (z - 1)) else None
  | _ => None
  end.

Definition MedicineStock (productId : JsNumber) : oracle World Stock.t :=
  fun w => match lookup productId w with
           | Some s => (Ok s, w)
           | None => (Ok no_stock, w)
           end.

Definition showStage (productId : JsNumber) : oracle World string :=
  fun w => match lookup productId w with
           | Some _ => (Ok "Medicine Ordered", w)
           | None => (Ok "", w)
           end.

(** A stage method: it reverts for a product that does not exist. *)
Definition stage_method (estimates : bool) : Method World :=
  {| estimateGas := fun productId _ w =>
       match lookup productId w with
       | Some _ => if estimates then (Ok 21000, w)
                   else (Throw (Error "estimation unavailable"), w)
       | None => (Throw (Error "execution reverted"), w)
       end;
     send := fun productId _ w =>
       match lookup productId w with
       | Some _ => (Ok {| transactionHash := "0xfeed" |}, w)
       | None => (Throw (Error "execution reverted"), w)
       end |}.

(** A function of the contract that takes no payment: sent as a
    transaction with a value attached, it reverts. *)
Definition view_method : Method World :=
  {| estimateGas := fun _ _ w => (Throw (Error "execution reverted"), w);
     send := fun _ _ w => (Throw (Error "execution reverted"), w) |}.

(** The reads that the component calls by name; like the four stage
    methods they are functions of the contract, entries of its method
    table. *)
Definition view_functions : list string :=
  ["medicineCtr"; "MedicineStock"; "showStage"].

Definition contract (estimates : bool) : Contract World :=
  {| medicineCtr_call := fun w => (Ok (N.of_nat (List.length w)), w);
     MedicineStock_call := MedicineStock;
     showStage_call := showStage;
     methods := fun name =>
       if existsb (String.eqb name) form_operations then Some (stage_method estimates)
       else if existsb (String.eqb name) view_functions then Some view_method
       else None |}.

Definition web3 (estimates : bool) : Web3 World :=
  {| getAccounts := answer ["0xA11CE"];
     getId := answer 5777;
     eth_Contract := fun _ => contract estimates |}.

Definition ethereum : Ethereum World :=
  {| request_eth_requestAccounts := answer ["0xA11CE"] |}.

(** The contract is deployed on network 5777 only. *)
Definition env (estimates : bool) : Env World :=
  {| window_web3 := Some (web3 estimates);
     window_ethereum := Some ethereum;
     SupplyChainABI_networks := fun networkId =>
       if networkId =? 5777 then Some "0xC0FFEE" else None |}.

Definition env_elsewhere : Env World :=
  {| window_web3 := Some (web3 true);
     window_ethereum := Some ethereum;
     SupplyChainABI_networks := fun _ => None |}.

(** A page that was loaded when the price of the first product was
    still 1 wei, with [text] typed into the id field. *)
Definition page (estimates : bool) (text : string) : ViewState World :=
  {| currentAccount := Some "0xA11CE";
     loader := false;
     supplyChain := Some (contract estimates);
     medData := JsObject.set 1 (decode (Stock.make 1 "Aspirin" "Acme" 1 5 1900000000 1700000000))
                             JsObject.empty;
     medStage := JsObject.set 1 "Medicine Ordered" JsObject.empty;
     id := text;
     error := "" |}.

End Demo.

(** ** A ledger with fixed answers *)

Module Fixed.

(** Nothing changes in this world: the ledger holds two products and
    every read answers by the id alone. *)
Definition World : Type := unit.

Definition stockOf (k : Z) : Stock.t :=
  Stock.make (Z.to_N k) "Batch" "Depot" (Z.to_N k * 1000000000000000000) (Z.to_N k) 0 0.

Definition stageOf (k : Z) : string := "Medicine Ordered".

Definition by_id {A} (answer : Z -> A) (productId : JsNumber) : oracle World A :=
  fun w => match productId with
           | Num k => if (1 <=? k) && (k <=? 2) then (Ok (answer k), w)
                      else (Throw (Error "execution reverted"), w)
           | _ => (Throw (Error "invalid number value"), w)
           end.

Definition stage_method : Method World :=
  {| estimateGas := fun productId _ => by_id (fun _ => 50000) productId;
     send := fun productId _ =>
       by_id (fun _ => {| transactionHash := "0xbeef" |}) productId |}.

Definition contract : Contract World :=
  {| medicineCtr_call := fun w => (Ok 2%N, w);
     MedicineStock_call := by_id stockOf;
     showStage_call := by_id stageOf;
     methods := fun name =>
       if existsb (String.eqb name) form_operations then Some stage_method
       else None |}.

Definition web3 : Web3 World :=
  {| getAccounts := fun w => (Ok ["0xB0B"], w);
     getId := fun w => (Ok 1, w);
     eth_Contract := fun _ => contract |}.

Definition env : Env World :=
  {| window_web3 := Some web3;
     window_ethereum := None;
     SupplyChainABI_networks := fun _ => Some "0xC0FFEE" |}.

(** A browser without a provider. *)
Definition env_bare : Env World :=
  {| window_web3 := None;
     window_ethereum := None;
     SupplyChainABI_networks := fun _ => Some "0xC0FFEE" |}.

(** A provider that refuses to name the network. *)
Definition env_offline : Env World :=
  {| window_web3 :=
       Some {| getAccounts := fun w => (Ok ["0xB0B"], w);
               getId := fun w => (Throw (Error "network unavailable"), w);
               eth_Contract := fun _ => contract |};
     window_ethereum := None;
     SupplyChainABI_networks := fun _ => Some "0xC0FFEE" |}.

(** A short session: the component is mounted, the user types the id 1
    and submits the first form. *)
Definition after_typing : Machine World :=
  snd (handleIdChange "1" (mounted env tt)).

Definition after_submit : Machine World :=
  snd (handleSubmit env (view after_typing) "startManufacturing" after_typing).

(** A page of this ledger with [text] typed into the id field. *)
Definition page (text : string) : ViewState World :=
  {| currentAccount := Some "0xB0B";
     loader := false;
     supplyChain := Some contract;
     medData := JsObject.empty;
     medStage := JsObject.empty;
     id := text;
     error := "" |}.

End Fixed.

(** ** A session on the small ledger *)

Module DemoSession.

(** The component is mounted on the ledger with three products, the user
    types the id 2 and submits the second form. *)
Definition after_typing : Machine Demo.World :=
  snd (handleIdChange "2" (mounted (Demo.env true) Demo.stock)).

Definition after_submit : Machine Demo.World :=
  snd (handleSubmit (Demo.env true) (view after_typing) "startShipping" after_typing).

End DemoSession.
(** * Properties *)

(** ** Strings *)

Section StringFacts.

Lemma append_nil_r (s : string) : s ++ "" = s.
Proof. induction s as [|c s IH]; simpl; [reflexivity | now rewrite IH]. Qed.

Lemma append_assoc (s t u : string) : (s ++ t) ++ u = s ++ (t ++ u).
Proof. induction s as [|c s IH]; simpl; [reflexivity | now rewrite IH]. Qed.

Lemma length_append (s t : string) :
  String.length (s ++ t) = (String.length s + String.length t)%nat.
Proof. induction s as [|c s IH]; simpl; [reflexivity | now rewrite IH]. Qed.

Lemma length_repeat_char (c : ascii) (n : nat) :
  String.length (repeat_char c n) = n.
Proof. induction n as [|n IH]; simpl; [reflexivity | now rewrite IH]. Qed.

Lemma all_digits_append (s t : string) :
  all_digits (s ++ t) = all_digits s && all_digits t.
Proof.
  induction s as [|c s IH]; simpl; [reflexivity|].
  now rewrite IH, andb_assoc.
Qed.

Lemma all_digits_zeros (n : nat) : all_digits (repeat_char zero_char n) = true.
Proof. induction n as [|n IH]; simpl; [reflexivity | exact IH]. Qed.

Lemma is_digit_not_dot (c : ascii) : is_digit c = true -> Ascii.eqb c dot_char = false.
Proof.
  intros H. destruct (Ascii.eqb_spec c dot_char) as [->|]; [discriminate H | reflexivity].
Qed.

Lemma is_digit_not_minus (c : ascii) : is_digit c = true -> Ascii.eqb c minus_char = false.
Proof.
  intros H. destruct (Ascii.eqb_spec c minus_char) as [->|]; [discriminate H | reflexivity].
Qed.

Lemma is_nonzero_digit_is_digit (c : ascii) :
  is_nonzero_digit c = true -> is_digit c = true.
Proof.
  unfold is_nonzero_digit, is_digit. intros H.
  apply andb_true_iff in H as [H1 H2]. apply andb_true_iff. split; [|exact H2].
  apply N.leb_le in H1. apply N.leb_le. lia.
Qed.

Lemma all_digits_or_dots_digits (s : string) :
  all_digits s = true -> all_digits_or_dots s = true.
Proof.
  induction s as [|c s IH]; simpl; [reflexivity|].
  intros H. apply andb_true_iff in H as [Hc Hs]. now rewrite Hc, IH.
Qed.

Lemma all_digits_or_dots_append (s t : string) :
  all_digits_or_dots (s ++ t) = all_digits_or_dots s && all_digits_or_dots t.
Proof.
  induction s as [|c s IH]; simpl; [reflexivity|].
  now rewrite IH, andb_assoc.
Qed.

Lemma split_dot_digits (s : string) : all_digits s = true -> split_dot s = [s].
Proof.
  induction s as [|c s IH]; simpl; [reflexivity|].
  intros H. apply andb_true_iff in H as [Hc Hs].
  now rewrite (is_digit_not_dot c Hc), (IH Hs).
Qed.

Lemma split_dot_decimal (w f : string) :
  all_digits w = true -> all_digits f = true ->
  split_dot (w ++ String dot_char f) = [w; f].
Proof.
  intros Hw Hf. induction w as [|c w IH]; simpl.
  - now rewrite (split_dot_digits f Hf).
  - simpl in Hw. apply andb_true_iff in Hw as [Hc Hw].
    now rewrite (is_digit_not_dot c Hc), (IH Hw).
Qed.

Lemma digit_run_digits (s : string) : all_digits s = true -> digit_run s = s.
Proof.
  induction s as [|c s IH]; simpl; [reflexivity|].
  intros H. apply andb_true_iff in H as [Hc Hs]. now rewrite Hc, (IH Hs).
Qed.

(** A digit string is its prefix up to the last digit of 1-9, followed
    by zeros only. *)
Lemma upto_last_nonzero_zeros (s : string) :
  all_digits s = true ->
  all_digits (upto_last_nonzero s) = true /\
  (String.length (upto_last_nonzero s) <= String.length s)%nat /\
  s = upto_last_nonzero s
      ++ repeat_char zero_char (String.length s - String.length (upto_last_nonzero s)).
Proof.
  induction s as [|c s IH]; simpl; [auto|].
  intros H. apply andb_true_iff in H as [Hc Hs].
  destruct (IH Hs) as (Hd & Hlen & Heq).
  destruct (upto_last_nonzero s) as [|c' r] eqn:Hr.
  - simpl in Heq. rewrite Nat.sub_0_r in Heq.
    destruct (is_nonzero_digit c) eqn:Hnz; simpl.
    + rewrite Hc, Nat.sub_0_r. repeat split; [lia | now rewrite <- Heq].
    + repeat split; [lia|].
      assert (c = zero_char) as ->.
      { unfold is_digit in Hc. unfold is_nonzero_digit in Hnz.
        apply andb_true_iff in Hc as [H1 H2]. rewrite H2, andb_true_r in Hnz.
        apply N.leb_le in H1. apply N.leb_gt in Hnz.
        rewrite <- (ascii_N_embedding c).
        replace (N_of_ascii c) with 48%N by lia. reflexivity. }
      now rewrite <- Heq.
  - simpl. rewrite Hc. simpl in Hd. rewrite Hd. simpl in Hlen, Heq.
    repeat split; [lia | now rewrite <- Heq].
Qed.

Lemma upto_last_nonzero_not_zero (s : string) : upto_last_nonzero s <> "0".
Proof.
  destruct s as [|c s]; simpl; [discriminate|].
  destruct (upto_last_nonzero s) as [|c' r]; [|discriminate].
  destruct (is_nonzero_digit c) eqn:Hnz; [|discriminate].
  intros H. injection H as ->. discriminate Hnz.
Qed.

End StringFacts.

(** ** Printing and reading big numbers *)

Section BNFacts.

Import BN.

Lemma digit_char_spec (d : Z) :
  0 <= d < 10 -> digit_val (digit_char d) = d /\ is_digit (digit_char d) = true.
Proof.
  intros Hd. unfold digit_val, digit_char, is_digit.
  rewrite N_ascii_embedding by lia.
  split; [lia|].
  apply andb_true_iff. split; apply N.leb_le; lia.
Qed.

Lemma parse_digits_append (s t : string) (a : Z) :
  parse_digits (s ++ t) a = parse_digits t (parse_digits s a).
Proof. revert a. induction s as [|c s IH]; intros a; simpl; [reflexivity | apply IH]. Qed.

Lemma parse_digits_shift (s : string) (a : Z) :
  parse_digits s a = a * 10 ^ Z.of_nat (String.length s) + parse_digits s 0.
Proof.
  revert a. induction s as [|c s IH]; intros a.
  - simpl. lia.
  - cbn [parse_digits String.length].
    rewrite (IH (a * 10 + digit_val c)), (IH (0 * 10 + digit_val c)).
    rewrite Nat2Z.inj_succ, Z.pow_succ_r by lia. ring.
Qed.

Lemma parse_digits_positional (s : string) :
  parse_digits s 0 = positional_value s.
Proof.
  induction s as [|c s IH]; [reflexivity|].
  cbn [parse_digits positional_value].
  rewrite parse_digits_shift, IH. ring.
Qed.

Lemma parse_digits_zeros (n : nat) (a : Z) :
  parse_digits (repeat_char zero_char n) a = a * 10 ^ Z.of_nat n.
Proof.
  revert a. induction n as [|n IH]; intros a.
  - simpl. lia.
  - cbn [repeat_char parse_digits]. rewrite IH.
    rewrite Nat2Z.inj_succ, Z.pow_succ_r by lia.
    change (digit_val zero_char) with 0. ring.
Qed.

Lemma to_digits_acc (fuel : nat) (n : Z) (acc : string) :
  to_digits fuel n acc = to_digits fuel n "" ++ acc.
Proof.
  revert n acc. induction fuel as [|fuel IH]; intros n acc; simpl; [reflexivity|].
  destruct (n / 10 =? 0); [reflexivity|].
  rewrite (IH (n / 10) (String _ acc)), (IH (n / 10) (String _ "")).
  now rewrite append_assoc.
Qed.

Lemma to_digits_all_digits (fuel : nat) (n : Z) (acc : string) :
  0 <= n -> all_digits acc = true -> all_digits (to_digits fuel n acc) = true.
Proof.
  revert n acc. induction fuel as [|fuel IH]; intros n acc Hn Hacc; simpl; [exact Hacc|].
  assert (Hd : all_digits (String (digit_char (n mod 10)) acc) = true).
  { simpl. rewrite Hacc, andb_true_r.
    apply digit_char_spec. apply Z.mod_pos_bound. lia. }
  destruct (n / 10 =? 0); [exact Hd|].
  apply IH; [apply Z.div_pos; lia | exact Hd].
Qed.

Lemma to_digits_value (fuel : nat) (n : Z) :
  0 <= n < 2 ^ Z.of_nat fuel -> parse_digits (to_digits fuel n "") 0 = n.
Proof.
  revert n. induction fuel as [|fuel IH]; intros n Hn.
  - simpl in *. lia.
  - cbn [to_digits].
    assert (Hmod : 0 <= n mod 10 < 10) by (apply Z.mod_pos_bound; lia).
    destruct (digit_char_spec _ Hmod) as [Hv _].
    destruct (n / 10 =? 0) eqn:Hq.
    + apply Z.eqb_eq in Hq. simpl. rewrite Hv.
      pose proof (Z.div_mod n 10). lia.
    + rewrite to_digits_acc, parse_digits_append, IH.
      * simpl. rewrite Hv. pose proof (Z.div_mod n 10). lia.
      * rewrite Nat2Z.inj_succ, Z.pow_succ_r in Hn by lia.
        split; [apply Z.div_pos; lia|].
        apply Z.div_lt_upper_bound; lia.
Qed.

Lemma to_digits_length (fuel : nat) (n : Z) (k : nat) :
  0 <= n < 10 ^ Z.of_nat k -> (1 <= k)%nat ->
  (String.length (to_digits fuel n "") <= k)%nat.
Proof.
  revert n k. induction fuel as [|fuel IH]; intros n k Hn Hk; [simpl; lia|].
  cbn [to_digits].
  destruct (n / 10 =? 0) eqn:Hq; [simpl; lia|].
  apply Z.eqb_neq in Hq.
  rewrite to_digits_acc, length_append. simpl.
  destruct k as [|[|k]]; [lia| |].
  - change (10 ^ Z.of_nat 1) with 10 in Hn.
    rewrite Z.div_small in Hq by lia. lia.
  - assert (String.length (to_digits fuel (n / 10) "") <= S k)%nat; [|lia].
    apply IH; [|lia].
    rewrite Nat2Z.inj_succ, Z.pow_succ_r in Hn by lia.
    split; [apply Z.div_pos; lia|].
    apply Z.div_lt_upper_bound; lia.
Qed.

Lemma to_digits_not_empty (fuel : nat) (n : Z) : to_digits (S fuel) n "" <> "".
Proof.
  cbn [to_digits]. destruct (n / 10 =? 0); [discriminate|].
  rewrite to_digits_acc. destruct (to_digits fuel (n / 10) ""); discriminate.
Qed.

Lemma digits_fuel_enough (z : Z) : 0 <= z -> 0 <= z < 2 ^ Z.of_nat (digits_fuel z).
Proof.
  intros Hz. split; [exact Hz|]. unfold digits_fuel.
  rewrite Nat2Z.inj_succ, Z2Nat.id by apply Z.log2_nonneg.
  destruct (Z.eq_dec z 0) as [->|Hnz]; [reflexivity|].
  apply Z.log2_spec. lia.
Qed.

(** [toString] of a number that is not negative: its decimal digits. *)
Lemma toString_nonneg (z : Z) :
  0 <= z ->
  all_digits (toString z) = true /\ toString z <> "" /\
  parse_digits (toString z) 0 = z.
Proof.
  intros Hz. unfold toString.
  destruct (z <? 0) eqn:Hneg; [apply Z.ltb_lt in Hneg; lia|].
  repeat split.
  - now apply to_digits_all_digits.
  - apply to_digits_not_empty.
  - apply to_digits_value, digits_fuel_enough, Hz.
Qed.

Lemma toString_length (z : Z) (k : nat) :
  0 <= z < 10 ^ Z.of_nat k -> (1 <= k)%nat -> (String.length (toString z) <= k)%nat.
Proof.
  intros Hz Hk. unfold toString.
  destruct (z <? 0) eqn:Hneg; [apply Z.ltb_lt in Hneg; lia|].
  now apply to_digits_length.
Qed.

(** Reading back what [toString] printed. *)
Lemma numberToBN_toString (z : Z) :
  0 <= z -> Web3Utils.numberToBN (toString z) = Ok z.
Proof.
  intros Hz. destruct (toString_nonneg z Hz) as (Hd & Hne & Hv).
  unfold Web3Utils.numberToBN.
  destruct (toString z) as [|c s] eqn:Hs; [contradiction|].
  pose proof Hd as Hd'. simpl in Hd'. apply andb_true_iff in Hd' as [Hc _].
  now rewrite (is_digit_not_minus c Hc), Hd, Hv.
Qed.

Lemma toBN_toString (z : Z) : 0 <= z -> Web3Utils.toBN (toString z) = Ok z.
Proof. intros Hz. unfold Web3Utils.toBN. now rewrite numberToBN_toString. Qed.

End BNFacts.

(** ** Converting between wei and ether *)

Section WeiFacts.

Import BN Web3Utils.

Lemma starts_with_minus_digits (w : string) :
  all_digits w = true -> starts_with minus_char w = false.
Proof.
  destruct w as [|c w]; simpl; [reflexivity|].
  intros H. apply andb_true_iff in H as [Hc _]. now apply is_digit_not_minus.
Qed.

Lemma toWei_decimal (w f : string) :
  all_digits w = true -> w <> "" -> all_digits f = true -> f <> "" ->
  (String.length f <= ether_decimals)%nat ->
  toWei (w ++ String dot_char f)
  = Ok (toString (parse_digits w 0 * ether_base
                  + parse_digits f 0 * 10 ^ Z.of_nat (ether_decimals - String.length f))).
Proof.
  intros Hw Hwne Hf Hfne Hlen.
  pose proof (split_dot_decimal w f Hw Hf) as Hsplit.
  assert (Hdots : all_digits_or_dots (w ++ String dot_char f) = true).
  { rewrite all_digits_or_dots_append, (all_digits_or_dots_digits w Hw). simpl.
    now rewrite (all_digits_or_dots_digits f Hf). }
  unfold toWei.
  assert (Hminus : starts_with minus_char (w ++ String dot_char f) = false).
  { destruct w as [|c w]; [contradiction|]. simpl in Hw |- *.
    apply andb_true_iff in Hw as [Hc _]. now apply is_digit_not_minus. }
  assert (Hnot : forall t, t = "" \/ t = "." ->
                           ((w ++ String dot_char f) =? t)%string = false).
  { intros t Ht. apply String.eqb_neq. destruct w as [|c w]; [contradiction|].
    simpl in Hw. apply andb_true_iff in Hw as [Hc _].
    destruct Ht as [-> | ->]; [discriminate|].
    simpl. intros H. injection H as -> _. discriminate Hc. }
  rewrite Hminus, Hdots, (Hnot ""), (Hnot ".") by auto. cbn [negb orb].
  rewrite Hsplit. unfold wei_of_components.
  apply String.eqb_neq in Hwne, Hfne. rewrite Hwne, Hfne.
  destruct (Nat.ltb_spec ether_decimals (String.length f)) as [Hgt|_]; [lia|].
  unfold pad_end_zeros.
  rewrite parse_digits_append, parse_digits_zeros.
  reflexivity.
Qed.

Lemma toWei_integer (w : string) :
  all_digits w = true -> w <> "" ->
  toWei w = Ok (toString (parse_digits w 0 * ether_base)).
Proof.
  intros Hw Hwne. unfold toWei.
  assert (Hdot : (w =? ".")%string = false).
  { apply String.eqb_neq. intros ->. discriminate Hw. }
  rewrite (starts_with_minus_digits w Hw), (all_digits_or_dots_digits w Hw), Hdot.
  apply String.eqb_neq in Hwne. rewrite Hwne. cbn [negb orb].
  rewrite (split_dot_digits w Hw). unfold wei_of_components.
  rewrite Hwne. cbn -[Z.mul Z.add ether_base toString parse_digits].
  match goal with |- Ok (toString (_ + ?x)) = _ => change x with 0 end.
  now rewrite Z.add_0_r.
Qed.

Lemma parse_digits_trailing_zeros (s g : string) (k : nat) :
  s = g ++ repeat_char zero_char k ->
  parse_digits s 0 = parse_digits g 0 * 10 ^ Z.of_nat k.
Proof. intros ->. now rewrite parse_digits_append, parse_digits_zeros. Qed.

(** The fraction that [fromWei] prints before it drops the trailing
    zeros: 18 digits whose value is the remainder. *)
Lemma padded_fraction (r : Z) :
  0 <= r < ether_base ->
  let fraction := pad_start_zeros ether_decimals (toString r) in
  all_digits fraction = true /\
  String.length fraction = ether_decimals /\
  parse_digits fraction 0 = r.
Proof.
  intros Hr fraction. subst fraction. unfold pad_start_zeros.
  destruct (toString_nonneg r (proj1 Hr)) as (Hd & _ & Hv).
  assert (Hlen : (String.length (toString r) <= ether_decimals)%nat).
  { apply toString_length; [exact Hr | unfold ether_decimals; lia]. }
  repeat split.
  - now rewrite all_digits_append, all_digits_zeros, Hd.
  - rewrite length_append, length_repeat_char. lia.
  - rewrite parse_digits_append, parse_digits_zeros. exact Hv.
Qed.

(** [fromWei] of an unsigned integer of the ledger. *)
Lemma fromWei_uint (n : N) :
  let wei := Z.of_N n in
  fromWei (uint_string n)
  = Ok (toString (wei / ether_base)
        ++ (if wei mod ether_base =? 0 then ""
            else String dot_char
                   (upto_last_nonzero
                      (pad_start_zeros ether_decimals (toString (wei mod ether_base)))))).
Proof.
  intros wei. unfold fromWei, uint_string. fold wei.
  assert (Hwei : 0 <= wei) by apply N2Z.is_nonneg.
  rewrite (numberToBN_toString wei Hwei). cbn [bind_result].
  destruct (wei <? 0) eqn:Hneg; [apply Z.ltb_lt in Hneg; lia|].
  assert (Hr : 0 <= wei mod ether_base < ether_base)
    by (apply Z.mod_pos_bound; reflexivity).
  destruct (wei mod ether_base =? 0) eqn:Hz.
  - apply Z.eqb_eq in Hz. rewrite Hz. reflexivity.
  - apply Z.eqb_neq in Hz.
    destruct (padded_fraction _ Hr) as (Hd & Hlen & Hv).
    unfold fraction_group. rewrite (digit_run_digits _ Hd).
    destruct (upto_last_nonzero_zeros _ Hd) as (_ & _ & Heq).
    pose proof (upto_last_nonzero_not_zero
                  (pad_start_zeros ether_decimals (toString (wei mod ether_base)))) as Hnz.
    destruct (upto_last_nonzero
                (pad_start_zeros ether_decimals (toString (wei mod ether_base))))
      as [|c g] eqn:Hg.
    + exfalso. apply Hz. rewrite <- Hv, Heq. simpl.
      rewrite parse_digits_zeros. reflexivity.
    + cbn [bind_result]. apply String.eqb_neq in Hnz. now rewrite Hnz.
Qed.

(** What [fromWei] printed, [toWei] reads back. *)
Lemma toWei_fromWei_uint (n : N) :
  exists price, fromWei (uint_string n) = Ok price /\ toWei price = Ok (uint_string n).
Proof.
  set (wei := Z.of_N n).
  assert (Hwei : 0 <= wei) by apply N2Z.is_nonneg.
  assert (Hr : 0 <= wei mod ether_base < ether_base)
    by (apply Z.mod_pos_bound; reflexivity).
  assert (Hq : 0 <= wei / ether_base) by (apply Z.div_pos; [exact Hwei | reflexivity]).
  destruct (toString_nonneg _ Hq) as (Hwd & Hwne & Hwv).
  eexists. split; [apply fromWei_uint|]. fold wei. cbv zeta.
  destruct (wei mod ether_base =? 0) eqn:Hz.
  - apply Z.eqb_eq in Hz. rewrite append_nil_r, (toWei_integer _ Hwd Hwne), Hwv.
    unfold uint_string. fold wei. f_equal. f_equal.
    pose proof (Z.div_mod wei ether_base). unfold ether_base in *. lia.
  - apply Z.eqb_neq in Hz.
    destruct (padded_fraction _ Hr) as (Hd & Hlen & Hv).
    destruct (upto_last_nonzero_zeros _ Hd) as (Hgd & Hglen & Heq).
    set (g := upto_last_nonzero
                (pad_start_zeros ether_decimals (toString (wei mod ether_base)))) in *.
    assert (Hgne : g <> "").
    { intros Hg. apply Hz. rewrite <- Hv, Heq, Hg. simpl.
      rewrite parse_digits_zeros. reflexivity. }
    rewrite (toWei_decimal _ g Hwd Hwne Hgd Hgne) by lia.
    rewrite Hwv. unfold uint_string. fold wei. f_equal. f_equal.
    assert (Hfrac : parse_digits g 0 * 10 ^ Z.of_nat (ether_decimals - String.length g)
                    = wei mod ether_base).
    { rewrite Hlen in Heq. rewrite <- Hv. symmetry.
      now apply parse_digits_trailing_zeros. }
    rewrite Hfrac.
    pose proof (Z.div_mod wei ether_base). unfold ether_base in *. lia.
Qed.

End WeiFacts.

(** ** PaymentCalculator *)

Section PaymentFacts.

Import BN Web3Utils.

Lemma parse_digits_nonneg (s : string) (a : Z) :
  all_digits s = true -> 0 <= a -> 0 <= parse_digits s a.
Proof.
  revert a. induction s as [|c s IH]; intros a Hs Ha; simpl; [exact Ha|].
  simpl in Hs. apply andb_true_iff in Hs as [Hc Hs].
  apply IH; [exact Hs|].
  unfold is_digit in Hc. apply andb_true_iff in Hc as [H1 _]. apply N.leb_le in H1.
  unfold digit_val. lia.
Qed.

Lemma valid_price_parts (p : Decimal) :
  valid_price p = true ->
  all_digits (whole p) = true /\ whole p <> "" /\
  all_digits (fraction p) = true /\
  (String.length (fraction p) <= ether_decimals)%nat.
Proof.
  unfold valid_price. intros H.
  apply andb_true_iff in H as [H Hlen]. apply andb_true_iff in H as [H Hf].
  apply andb_true_iff in H as [Hw Hne].
  apply negb_true_iff, String.eqb_neq in Hne. apply Nat.leb_le in Hlen.
  auto.
Qed.

Lemma wei_of_price_nonneg (p : Decimal) : valid_price p = true -> 0 <= wei_of_price p.
Proof.
  intros H. destruct (valid_price_parts p H) as (Hw & _ & Hf & _).
  unfold wei_of_price, ether_base.
  pose proof (parse_digits_nonneg _ 0 Hw (Z.le_refl 0)).
  pose proof (parse_digits_nonneg _ 0 Hf (Z.le_refl 0)).
  assert (0 <= 10 ^ Z.of_nat (ether_decimals - String.length (fraction p)))
    by (apply Z.pow_nonneg; lia).
  nia.
Qed.

Lemma toWei_valid_price (p : Decimal) :
  valid_price p = true -> toWei (spelling p) = Ok (toString (wei_of_price p)).
Proof.
  intros H. destruct (valid_price_parts p H) as (Hw & Hne & Hf & Hlen).
  unfold spelling, wei_of_price.
  destruct (String.eqb_spec (fraction p) "") as [Hnil|Hfne].
  - rewrite Hnil, (toWei_integer _ Hw Hne). simpl parse_digits.
    now rewrite Z.mul_0_l, Z.add_0_r.
  - now apply toWei_decimal.
Qed.

(** In the rationals, the amount is the price times [10^18]. *)
Lemma wei_of_price_scale (p : Decimal) :
  valid_price p = true -> inject_Z (wei_of_price p) == scaleToMinorUnits p.
Proof.
  intros H. destruct (valid_price_parts p H) as (_ & _ & _ & Hlen).
  unfold wei_of_price, scaleToMinorUnits, decimal_value, ether_base.
  rewrite <- !parse_digits_positional.
  set (l := String.length (fraction p)) in *.
  replace (10 ^ 18) with (10 ^ Z.of_nat l * 10 ^ Z.of_nat (ether_decimals - l)).
  2:{ rewrite <- Z.pow_add_r by lia. f_equal. unfold ether_decimals in *. lia. }
  rewrite inject_Z_plus, !inject_Z_mult.
  assert (Hpos : ~ inject_Z (10 ^ Z.of_nat l) == 0).
  { assert (0 < 10 ^ Z.of_nat l) by (apply Z.pow_pos_nonneg; lia).
    unfold Qeq. simpl. lia. }
  field. exact Hpos.
Qed.

(** The payment for a valid price and a quantity of the ledger. *)
Lemma calculatePayment_valid (p : Decimal) (q : N) :
  valid_price p = true ->
  calculatePayment (spelling p) (uint_string q)
  = Ok (toString (wei_of_price p * Z.of_N q)).
Proof.
  intros H. unfold calculatePayment.
  rewrite (toWei_valid_price p H). cbn [bind_result].
  rewrite (toBN_toString _ (wei_of_price_nonneg p H)). cbn [bind_result].
  unfold uint_string.
  rewrite (toBN_toString _ (N2Z.is_nonneg q)). reflexivity.
Qed.

(** The payment for a product as the ledger stores it: the price goes
    through [fromWei] and [toWei] and comes back unchanged. *)
Lemma calculatePayment_uint (price quantity : N) :
  exists ether,
    fromWei (uint_string price) = Ok ether /\
    calculatePayment ether (uint_string quantity)
    = Ok (uint_string (price * quantity)).
Proof.
  destruct (toWei_fromWei_uint price) as (ether & Hfrom & Hto).
  exists ether. split; [exact Hfrom|].
  unfold calculatePayment. rewrite Hto. cbn [bind_result].
  unfold uint_string.
  rewrite !toBN_toString by apply N2Z.is_nonneg. cbn [bind_result].
  now rewrite N2Z.inj_mul.
Qed.

End PaymentFacts.

(** ** Running the submit handler *)

Section SubmitFacts.

Context {World : Type}.

Implicit Types (env : Env World) (st : ViewState World) (w : World).

Ltac unfold_machine :=
  cbv beta iota zeta delta
    [bind ret throw try_catch emit set_state await lift defined machine_at
     submit attempt handleSubmit handleSubmit_try world trace view fst snd
     decode Medicine.price Medicine.quantity].

(** Case analysis on whatever the run is waiting for. *)
Ltac run_cases :=
  repeat (cbv beta iota zeta;
          match goal with
          | |- context [match ?x with _ => _ end] =>
              lazymatch x with
              | context [match _ with _ => _ end] => fail
              | _ => destruct x eqn:?
              end
          end).

Ltac read_trace :=
  cbn [app existsb filter touches_catalog is_ledger_call is_write orb
       user_messages user_message sent_values sent_gas String.eqb
       value gas apply_update medData medStage id error currentAccount
       loader supplyChain].

Lemma user_messages_app (t u : list (Event World)) :
  user_messages (t ++ u) = (user_messages t ++ user_messages u)%list.
Proof.
  induction t as [|ev t IH]; simpl; [reflexivity|].
  destruct (user_message ev); simpl; now rewrite IH.
Qed.

Lemma existsb_touches_catalog_app (t u : list (Event World)) :
  existsb touches_catalog (t ++ u)
  = existsb touches_catalog t || existsb touches_catalog u.
Proof. apply existsb_app. Qed.

(** The handler is its prologue, the [try] block and, when the block
    throws, the [catch] clause. *)
Lemma submit_attempt env w st methodName :
  submit env w st methodName
  = match attempt env w st methodName with
    | (Ok _, m) => m
    | (Throw e, m) =>
        {| world := world m;
           trace := trace m
                    ++ [EvConsoleError ("Error in " ++ methodName ++ ":") e;
                        EvSetState (setError ("Error in " ++ methodName ++ ": "
                                              ++ message e))];
           view := apply_update
                     (setError ("Error in " ++ methodName ++ ": " ++ message e))
                     (view m) |}
    end.
Proof.
  unfold submit, handleSubmit, attempt.
  unfold bind at 1 2. unfold try_catch.
  cbv beta iota zeta delta [bind emit set_state machine_at snd world trace view].
  destruct (handleSubmit_try env st methodName _) as [[u|e] m]; cbn [snd].
  - reflexivity.
  - cbn [world trace view]. now rewrite <- app_assoc.
Qed.

(** What the [try] block leaves behind, on each of its two exits. *)
Lemma attempt_shape env w st methodName :
  let (r, m) := attempt env w st methodName in
  existsb touches_catalog (trace m) = false /\
  match r with
  | Throw e =>
      view m = apply_update (setError "") st /\ user_messages (trace m) = []
  | Ok _ =>
      view m = apply_update (setId "") (apply_update (setError "") st) /\
      exists receipt,
        user_messages (trace m)
        = ["Successfully called " ++ methodName ++ " with result: "
           ++ transactionHash receipt]
  end.
Proof.
  unfold_machine. run_cases.
  all: read_trace.
  all: repeat split; try reflexivity; eexists; reflexivity.
Qed.

Lemma error_line_not_empty (methodName cause : string) :
  (("Error in " ++ methodName ++ ": " ++ cause) =? "")%string = false.
Proof. reflexivity. Qed.

(** C9: whatever happens, a submission neither changes nor reloads the
    snapshot: [medData] and [medStage] stay as they were, and so do the
    account, the loading flag and the contract; the trace holds no setter
    of the snapshot and no read of the loader.  When the [try]
    block completes, the state differs from the one before only in the
    id field, now empty, and the error line, now empty. *)
Theorem handleSubmit_keeps_snapshot env w st methodName :
  let m := submit env w st methodName in
  medData (view m) = medData st /\
  medStage (view m) = medStage st /\
  currentAccount (view m) = currentAccount st /\
  loader (view m) = loader st /\
  supplyChain (view m) = supplyChain st /\
  existsb touches_catalog (trace m) = false /\
  (fst (attempt env w st methodName) = Ok tt ->
   view m = {| currentAccount := currentAccount st;
               loader := loader st;
               supplyChain := supplyChain st;
               medData := medData st;
               medStage := medStage st;
               id := "";
               error := "" |}).
Proof.
  cbv zeta. rewrite submit_attempt.
  pose proof (attempt_shape env w st methodName) as Hshape.
  destruct (attempt env w st methodName) as [[u|e] m].
  - destruct Hshape as (Hcat & Hview & _). rewrite Hview.
    repeat split; try reflexivity. exact Hcat.
  - destruct Hshape as (Hcat & Hview & _). cbn [view trace]. rewrite Hview.
    repeat split; try reflexivity.
    + rewrite existsb_touches_catalog_app, Hcat. reflexivity.
    + discriminate.
Qed.

(** C3: when the [try] block of a submission throws [e], at whichever
    step, [medData] and [medStage] are what they were, the id field is
    untouched, and the user is shown exactly one message, the error line
    "Error in <methodName>: <message of e>". *)
Theorem handleSubmit_failure env w st methodName (e : exn) :
  fst (attempt env w st methodName) = Throw e ->
  let m := submit env w st methodName in
  medData (view m) = medData st /\
  medStage (view m) = medStage st /\
  id (view m) = id st /\
  error (view m) = "Error in " ++ methodName ++ ": " ++ message e /\
  user_messages (trace m) = ["Error in " ++ methodName ++ ": " ++ message e].
Proof.
  intros Hthrow. cbv zeta. rewrite submit_attempt.
  pose proof (attempt_shape env w st methodName) as Hshape.
  destruct (attempt env w st methodName) as [[u|e'] m]; [discriminate Hthrow|].
  cbn [fst] in Hthrow. injection Hthrow as ->.
  destruct Hshape as (_ & Hview & Hmsgs). cbn [view trace]. rewrite Hview.
  repeat split; try reflexivity.
  rewrite user_messages_app, Hmsgs.
  cbn [user_messages user_message app]. now rewrite error_line_not_empty.
Qed.

(** C2, as amended: when [parseInt] finds no number in the id field, the
    submission fails with "Invalid Product ID" and calls neither the
    ledger nor the wallet: no read, no estimate, no write. *)
Theorem handleSubmit_rejects_NaN env w st methodName :
  parseInt (id st) = NaN ->
  let m := submit env w st methodName in
  fst (attempt env w st methodName) = Throw (Error "Invalid Product ID") /\
  error (view m) = "Error in " ++ methodName ++ ": Invalid Product ID" /\
  existsb is_ledger_call (trace m) = false.
Proof.
  intros Hnan. unfold_machine. rewrite Hnan. cbn [isNaN].
  cbv beta iota zeta. read_trace. auto.
Qed.

(** C6, as amended: the page offers four operations, but the handler
    resolves whatever name it is given in the method table of the
    contract.  With a parsable id, a name that the table lacks fails
    with "Method <name> does not exist on the smart contract." before
    any call to the ledger, and every name that the table holds goes on
    to the ledger, whether it is one of the four or not. *)
Theorem handleSubmit_dispatch env w st methodName (contract : Contract World) :
  isNaN (parseInt (id st)) = false ->
  supplyChain st = Some contract ->
  let m := submit env w st methodName in
  (List.length form_operations = 4%nat /\ NoDup form_operations) /\
  (methods contract methodName = None ->
   fst (attempt env w st methodName)
   = Throw (Error ("Method " ++ methodName ++ " does not exist on the smart contract."))
   /\ existsb is_ledger_call (trace m) = false) /\
  (forall method, methods contract methodName = Some method ->
   exists rest, trace m = ([EvPreventDefault; EvSetState (setError "");
                            EvMedicineStock (parseInt (id st))] ++ rest)%list).
Proof.
  intros Hnum Hcontract. cbv zeta. split; [|split].
  - split; [reflexivity|].
    repeat constructor; cbn [In]; intuition discriminate.
  - intros Hnone. unfold_machine. rewrite Hnum, Hcontract. cbv beta iota zeta.
    rewrite Hnone. cbv beta iota zeta. read_trace. auto.
  - intros method Hsome. unfold_machine. rewrite Hnum, Hcontract. cbv beta iota zeta.
    rewrite Hsome. run_cases.
    all: cbn [app]; eexists; reflexivity.
Qed.

(** C4: when every step up to the estimate succeeds and the estimate
    throws, the submission still sends its one write, with the gas limit
    3000000.  The outcome is the outcome of that write: after an accepted
    write the error line is empty, after a rejected one it names the
    rejection, never the estimate. *)
Theorem handleSubmit_gas_fallback env w st methodName
    (contract : Contract World) (method : Method World) (stock : Stock.t)
    (ethereum : Ethereum World) (accounts : list string) (e : exn)
    (w1 w2 w3 : World) :
  isNaN (parseInt (id st)) = false ->
  supplyChain st = Some contract ->
  methods contract methodName = Some method ->
  MedicineStock_call contract (parseInt (id st)) w = (Ok stock, w1) ->
  window_ethereum env = Some ethereum ->
  request_eth_requestAccounts ethereum w1 = (Ok accounts, w2) ->
  estimateGas method (parseInt (id st)) (hd_error accounts) w2 = (Throw e, w3) ->
  let m := submit env w st methodName in
  let options := {| from := hd_error accounts;
                    gas := 3000000;
                    value := uint_string (Stock.price stock * Stock.quantity stock) |} in
  filter is_write (trace m) = [EvSend methodName (parseInt (id st)) options] /\
  match send method (parseInt (id st)) options w3 with
  | (Ok receipt, _) =>
      fst (attempt env w st methodName) = Ok tt /\
      error (view m) = "" /\
      user_messages (trace m)
      = ["Successfully called " ++ methodName ++ " with result: "
         ++ transactionHash receipt]
  | (Throw e', _) =>
      fst (attempt env w st methodName) = Throw e' /\
      error (view m) = "Error in " ++ methodName ++ ": " ++ message e' /\
      user_messages (trace m) = ["Error in " ++ methodName ++ ": " ++ message e']
  end.
Proof.
  intros Hnum Hcontract Hmethod Hread Hwallet Haccounts Hestimate.
  destruct (calculatePayment_uint (Stock.price stock) (Stock.quantity stock))
    as (ether & Hfrom & Hpay).
  unfold_machine. rewrite Hnum, Hcontract. cbv beta iota zeta.
  rewrite Hmethod, Hread. cbv beta iota zeta.
  rewrite Hfrom, Hpay, Hwallet. cbv beta iota zeta.
  rewrite Haccounts. cbv beta iota zeta.
  rewrite Hestimate. cbv beta iota zeta.
  change fallback_gas with 3000000.
  destruct (send method _ _ w3) as [[receipt|e'] w4]; read_trace; auto.
Qed.

(** C7: when the id parses, the method exists, the read of the product
    succeeds and the wallet names its accounts, the submission reads the
    product from the ledger and attaches exactly price times quantity, in
    wei, to its one write.  The snapshot plays no part: the same holds
    whatever [medData] and [medStage] the page holds. *)
Theorem handleSubmit_payment env w st methodName
    (contract : Contract World) (method : Method World) (stock : Stock.t)
    (ethereum : Ethereum World) (accounts : list string) (w1 w2 : World)
    (cachedData : JsObject.t Medicine.t) (cachedStage : JsObject.t string) :
  isNaN (parseInt (id st)) = false ->
  supplyChain st = Some contract ->
  methods contract methodName = Some method ->
  MedicineStock_call contract (parseInt (id st)) w = (Ok stock, w1) ->
  window_ethereum env = Some ethereum ->
  request_eth_requestAccounts ethereum w1 = (Ok accounts, w2) ->
  let page := apply_update (setMedStage cachedStage)
                (apply_update (setMedData cachedData) st) in
  let m := submit env w page methodName in
  In (EvMedicineStock (parseInt (id st))) (trace m) /\
  sent_values (trace m)
  = [uint_string (Stock.price stock * Stock.quantity stock)].
Proof.
  intros Hnum Hcontract Hmethod Hread Hwallet Haccounts.
  destruct (calculatePayment_uint (Stock.price stock) (Stock.quantity stock))
    as (ether & Hfrom & Hpay).
  unfold_machine. cbn [apply_update id supplyChain].
  rewrite Hnum, Hcontract. cbv beta iota zeta.
  rewrite Hmethod, Hread. cbv beta iota zeta.
  rewrite Hfrom, Hpay, Hwallet. cbv beta iota zeta.
  rewrite Haccounts. run_cases.
  all: read_trace; cbn [In]; auto.
Qed.

End SubmitFacts.

(** ** Loading the catalog *)

Section LoadFacts.

Context {World : Type}.

Implicit Types (env : Env World) (st : ViewState World) (w : World).

Lemma ids_from_seq (i : nat) (count : nat) :
  ids_from (Z.of_nat i) count = map Z.of_nat (seq (S i) count).
Proof.
  revert i. induction count as [|count IH]; intros i; simpl; [reflexivity|].
  replace (Z.of_nat i + 1) with (Z.of_nat (S i)) by lia.
  now rewrite IH.
Qed.

Lemma ids_from_lower (i : Z) (count : nat) (k : Z) :
  In k (ids_from i count) -> i < k.
Proof.
  revert i. induction count as [|count IH]; intros i; simpl; [contradiction|].
  intros [<- | Hin]; [lia|]. apply IH in Hin. lia.
Qed.

(** Setting a key above all the keys of an object adds it at the end of
    the enumeration. *)
Lemma keys_set_above {V : Type} (k : Z) (v : V) (o : JsObject.t V) :
  (forall k', In k' (JsObject.keys o) -> k' < k) ->
  JsObject.keys (JsObject.set k v o) = (JsObject.keys o ++ [k])%list.
Proof.
  induction o as [|[k' v'] o IH]; intros Hlt; simpl; [reflexivity|].
  assert (k' < k) by (apply Hlt; simpl; auto).
  destruct (Z.ltb_spec k k'); [lia|].
  destruct (Z.eqb_spec k k'); [lia|].
  simpl. f_equal. apply IH. intros k'' Hin. apply Hlt. simpl. auto.
Qed.

Lemma ids_from_upper (i : Z) (count : nat) (k : Z) :
  In k (ids_from i count) -> k <= i + Z.of_nat count.
Proof.
  revert i. induction count as [|count IH]; intros i; simpl; [contradiction|].
  intros [<- | Hin]; [lia|]. apply IH in Hin. lia.
Qed.

(** The loop, when none of its reads throws: it issues the paired reads
    of the ids it visits, in order, and adds their keys to the two
    objects.  The objects it builds do not depend on the state of the
    page. *)
Lemma load_stock_reads (supplychain : Contract World)
    (remaining : nat) (i : Z) (med : JsObject.t Medicine.t)
    (medStage : JsObject.t string) (w : World) :
  (forall k w, In k (ids_from i remaining) ->
     exists stock w', MedicineStock_call supplychain (Num k) w = (Ok stock, w')) ->
  (forall k w, In k (ids_from i remaining) ->
     exists stage w', showStage_call supplychain (Num k) w = (Ok stage, w')) ->
  (forall k, In k (JsObject.keys med) -> k < i + 1) ->
  (forall k, In k (JsObject.keys medStage) -> k < i + 1) ->
  exists med' medStage' w',
    JsObject.keys med' = (JsObject.keys med ++ ids_from i remaining)%list /\
    JsObject.keys medStage' = (JsObject.keys medStage ++ ids_from i remaining)%list /\
    forall (t : list (Event World)) (v : ViewState World),
      load_stock supplychain remaining i med medStage
                 {| world := w; trace := t; view := v |}
      = (Ok (med', medStage'),
         {| world := w';
            trace := t ++ paired_reads (ids_from i remaining);
            view := v |}).
Proof.
  revert i med medStage w.
  induction remaining as [|remaining IH];
    intros i med medStage w Hstock Hstage Hmed HmedStage.
  - exists med, medStage, w. simpl. rewrite !app_nil_r.
    repeat split. intros t v. unfold ret. now rewrite app_nil_r.
  - destruct (Hstock (i + 1) w) as (stock & w1 & Hread1); [simpl; auto|].
    destruct (Hstage (i + 1) w1) as (stage & w2 & Hread2); [simpl; auto|].
    destruct (IH (i + 1) (JsObject.set (i + 1) (decode stock) med)
                 (JsObject.set (i + 1) stage medStage) w2)
      as (med' & medStage' & w' & Hk1 & Hk2 & Hrun).
    + intros k w0 Hin. apply Hstock. simpl. auto.
    + intros k w0 Hin. apply Hstage. simpl. auto.
    + intros k. rewrite (keys_set_above _ _ _ Hmed), in_app_iff. simpl.
      intros [Hin | [<- | []]]; [apply Hmed in Hin|]; lia.
    + intros k. rewrite (keys_set_above _ _ _ HmedStage), in_app_iff. simpl.
      intros [Hin | [<- | []]]; [apply HmedStage in Hin|]; lia.
    + exists med', medStage', w'.
      rewrite Hk1, Hk2, (keys_set_above _ _ _ Hmed), (keys_set_above _ _ _ HmedStage).
      cbn [ids_from]. rewrite <- !app_assoc. cbn [app].
      repeat split. intros t v.
      cbn [load_stock]. unfold bind at 1, await at 1. cbn [world trace view].
      rewrite Hread1. unfold bind at 1, await at 1. cbn [world trace view].
      rewrite Hread2, Hrun. unfold paired_reads. cbn [flat_map].
      now rewrite <- !app_assoc.
Qed.

Ltac unfold_load :=
  cbv beta iota zeta delta
    [load loadBlockchainData bind ret throw emit set_state await defined
     machine_at world trace view fst snd].

(** Setting a key above all the keys of an object puts the entry at the
    end. *)
Lemma set_above {V : Type} (k : Z) (v : V) (o : JsObject.t V) :
  (forall k', In k' (JsObject.keys o) -> k' < k) ->
  JsObject.set k v o = (o ++ [(k, v)])%list.
Proof.
  induction o as [|[k' v'] o IH]; intros Hlt; simpl; [reflexivity|].
  assert (k' < k) by (apply Hlt; simpl; auto).
  destruct (Z.ltb_spec k k'); [lia|].
  destruct (Z.eqb_spec k k'); [lia|].
  f_equal. apply IH. intros k'' Hin. apply Hlt. simpl. auto.
Qed.

Lemma keys_combine {V : Type} (ids : list Z) (values : list V) :
  List.length values = List.length ids ->
  JsObject.keys (combine ids values) = ids.
Proof.
  revert values. induction ids as [|k ids IH]; intros [|v values] Hlen;
    simpl in *; try reflexivity; try discriminate.
  f_equal. apply IH. lia.
Qed.

Lemma catalog_reads_length (supplychain : Contract World) (i : Z) (count : nat)
    (w w' : World) (answers : list (Stock.t * string)) :
  catalog_reads supplychain i count w answers w' -> List.length answers = count.
Proof. induction 1; simpl; congruence. Qed.

(** The loop on a ledger that answers its reads: the two objects gain,
    for each id it visits and in that order, the decoded product and the
    stage that the ledger answered for the id. *)
Lemma load_stock_answers (supplychain : Contract World) (i : Z) (count : nat)
    (w w' : World) (answers : list (Stock.t * string)) :
  catalog_reads supplychain i count w answers w' ->
  forall (med : JsObject.t Medicine.t) (medStage : JsObject.t string)
         (t : list (Event World)) (v : ViewState World),
    (forall k, In k (JsObject.keys med) -> k < i + 1) ->
    (forall k, In k (JsObject.keys medStage) -> k < i + 1) ->
    load_stock supplychain count i med medStage {| world := w; trace := t; view := v |}
    = (Ok ((med ++ combine (ids_from i count)
                           (map (fun a => decode (fst a)) answers))%list,
           (medStage ++ combine (ids_from i count) (map snd answers))%list),
       {| world := w';
          trace := t ++ paired_reads (ids_from i count);
          view := v |}).
Proof.
  induction 1 as [i w | i count w w1 w2 w3 stock stage answers Hread1 Hread2 _ IH];
    intros med medStage t v Hmed HmedStage.
  - simpl. unfold ret. now rewrite !app_nil_r.
  - cbn [load_stock]. unfold bind at 1, await at 1. cbn [world trace view].
    rewrite Hread1. unfold bind at 1, await at 1. cbn [world trace view].
    rewrite Hread2, (set_above _ _ _ Hmed), (set_above _ _ _ HmedStage), IH.
    + cbn [ids_from map combine fst snd]. unfold paired_reads. cbn [flat_map].
      now rewrite <- !app_assoc.
    + intros k. unfold JsObject.keys. rewrite map_app, in_app_iff. simpl.
      intros [Hin | [<- | []]]; [apply Hmed in Hin|]; lia.
    + intros k. unfold JsObject.keys. rewrite map_app, in_app_iff. simpl.
      intros [Hin | [<- | []]]; [apply HmedStage in Hin|]; lia.
Qed.

(** C5: when the contract is deployed, the counter reads [n] and the
    ledger answers the reads of the ids 1 to [n] as the loop issues them,
    the load completes without an error.  After the counter it issues
    exactly the paired reads of the product and the stage for 1, 2, ...,
    [n], in that order.  It replaces [medData] and [medStage], whatever the
    page held before, by the objects that hold under each id from 1 to
    [n], in that order, the decoded product and the stage that the ledger
    answered for the id, and nothing else.  For [n = 0] there is no read
    and both objects are empty. *)
Theorem loadBlockchainData_reads env w (web3 : Web3 World)
    (accounts : list string) (networkId : Z) (address : string) (n : N)
    (w1 w2 w3 w4 : World) (answers : list (Stock.t * string)) :
  window_web3 env = Some web3 ->
  getAccounts web3 w = (Ok accounts, w1) ->
  getId web3 w1 = (Ok networkId, w2) ->
  SupplyChainABI_networks env networkId = Some address ->
  let supplychain := eth_Contract web3 address in
  medicineCtr_call supplychain w2 = (Ok n, w3) ->
  catalog_reads supplychain 0 (N.to_nat n) w3 answers w4 ->
  let ids := map Z.of_nat (seq 1 (N.to_nat n)) in
  let med := combine ids (map (fun a => decode (fst a)) answers) in
  let stages := combine ids (map snd answers) in
  JsObject.keys med = ids /\
  JsObject.keys stages = ids /\
  forall st,
    load env w st
    = (Ok tt,
       {| world := w4;
          trace := [EvSetState (setLoader true); EvGetAccounts;
                    EvSetState (setCurrentAccount (hd_error accounts)); EvGetId;
                    EvSetState (setSupplyChain supplychain); EvMedicineCtr]
                   ++ paired_reads ids
                   ++ [EvSetState (setMedData med); EvSetState (setMedStage stages);
                       EvSetState (setLoader false)];
          view := {| currentAccount := hd_error accounts;
                     loader := false;
                     supplyChain := Some supplychain;
                     medData := med;
                     medStage := stages;
                     id := id st;
                     error := error st |} |}).
Proof.
  intros Hweb3 Haccounts Hid Hnet supplychain Hctr Hreads ids med stages.
  assert (Hids : ids_from 0 (N.to_nat n) = ids) by apply (ids_from_seq 0).
  pose proof (catalog_reads_length _ _ _ _ _ _ Hreads) as Hlen.
  assert (Hidlen : List.length ids = N.to_nat n).
  { unfold ids. now rewrite length_map, length_seq. }
  split; [|split].
  - apply keys_combine. rewrite length_map. congruence.
  - apply keys_combine. rewrite length_map. congruence.
  - intros st. unfold_load. rewrite Hweb3. cbv beta iota zeta.
    rewrite Haccounts. cbv beta iota zeta. rewrite Hid. cbv beta iota zeta.
    rewrite Hnet. cbv beta iota zeta. fold supplychain. rewrite Hctr.
    cbv beta iota zeta.
    rewrite (load_stock_answers supplychain 0 _ _ _ _ Hreads
               JsObject.empty JsObject.empty); [|intros k [] | intros k []].
    rewrite Hids.
    cbn [fst snd app apply_update currentAccount loader supplyChain medData
         medStage id error JsObject.empty].
    rewrite <- !app_assoc. reflexivity.
Qed.

(** C8: when the artifact has no entry for the network that the provider
    reports, the load reads nothing from the contract; it shows the alert
    "The smart contract is not deployed to the current network" and
    returns.  It ran once, as the trace shows; the loading flag, set at
    the start, stays set, so the page renders the loading notice and no
    catalog, and the snapshot is what it was. *)
Theorem loadBlockchainData_not_deployed env w st (web3 : Web3 World)
    (accounts : list string) (networkId : Z) (w1 w2 : World) :
  window_web3 env = Some web3 ->
  getAccounts web3 w = (Ok accounts, w1) ->
  getId web3 w1 = (Ok networkId, w2) ->
  SupplyChainABI_networks env networkId = None ->
  let m := snd (load env w st) in
  trace m = [EvSetState (setLoader true); EvGetAccounts;
             EvSetState (setCurrentAccount (hd_error accounts)); EvGetId;
             EvAlert not_deployed_msg] /\
  user_messages (trace m) = [not_deployed_msg] /\
  render (view m) = Loading /\
  medData (view m) = medData st /\
  medStage (view m) = medStage st.
Proof.
  intros Hweb3 Haccounts Hid Hnet.
  unfold_load. rewrite Hweb3. cbv beta iota zeta.
  rewrite Haccounts. cbv beta iota zeta. rewrite Hid. cbv beta iota zeta.
  rewrite Hnet. cbv beta iota zeta.
  repeat split.
Qed.

End LoadFacts.

(** ** The claims about the payment *)

Section PaymentClaims.

Import BN Web3Utils.

Lemma split_dot_not_empty (s : string) : split_dot s <> [].
Proof.
  destruct s as [|c s]; simpl; [discriminate|].
  destruct (Ascii.eqb c dot_char); [discriminate|].
  destruct (split_dot s); discriminate.
Qed.

Lemma split_dot_one (s w : string) : split_dot s = [w] -> s = w.
Proof.
  revert w. induction s as [|c s IH]; intros w; simpl.
  - intros H. now injection H.
  - destruct (Ascii.eqb c dot_char).
    + intros H. injection H as _ H. now apply split_dot_not_empty in H.
    + destruct (split_dot s) as [|piece rest] eqn:Hs.
      * now apply split_dot_not_empty in Hs.
      * intros H. injection H as <- ->. now rewrite (IH piece eq_refl).
Qed.

Lemma split_dot_two (s w f : string) :
  split_dot s = [w; f] -> s = w ++ String dot_char f.
Proof.
  revert w. induction s as [|c s IH]; intros w; simpl; [discriminate|].
  destruct (Ascii.eqb_spec c dot_char) as [->|Hc].
  - intros H. injection H as <- H. now rewrite (split_dot_one s f H).
  - destruct (split_dot s) as [|piece rest] eqn:Hs; [discriminate|].
    intros H. injection H as <- ->. now rewrite (IH piece eq_refl).
Qed.

(** [toWei] of digits around a point, where the digits on one side may
    be missing. *)
Lemma toWei_parts (w f : string) :
  all_digits w = true -> all_digits f = true ->
  ((w =? "")%string && (f =? "")%string) = false ->
  (String.length f <= ether_decimals)%nat ->
  toWei (w ++ String dot_char f)
  = Ok (toString (wei_of_price {| whole := w; fraction := f |})).
Proof.
  intros Hw Hf Hsome Hlen. unfold wei_of_price. cbn [whole fraction].
  assert (Hdots : all_digits_or_dots (w ++ String dot_char f) = true).
  { rewrite all_digits_or_dots_append, (all_digits_or_dots_digits w Hw). simpl.
    now rewrite (all_digits_or_dots_digits f Hf). }
  assert (Hminus : starts_with minus_char (w ++ String dot_char f) = false).
  { destruct w as [|c w]; [reflexivity|]. simpl in Hw |- *.
    apply andb_true_iff in Hw as [Hc _]. now apply is_digit_not_minus. }
  assert (Hnil : ((w ++ String dot_char f) =? "")%string = false).
  { apply String.eqb_neq. destruct w; discriminate. }
  assert (Hdot : ((w ++ String dot_char f) =? ".")%string = false).
  { apply String.eqb_neq. destruct w as [|c w].
    - simpl. intros H. injection H as ->. discriminate Hsome.
    - simpl in Hw. apply andb_true_iff in Hw as [Hc _].
      simpl. intros H. injection H as -> _. discriminate Hc. }
  unfold toWei. rewrite Hminus, Hdots, Hnil, Hdot. cbn [negb orb].
  rewrite (split_dot_decimal w f Hw Hf). unfold wei_of_components.
  destruct (String.eqb_spec f "") as [->|Hfne].
  - destruct (String.eqb_spec w "") as [->|Hwne]; [discriminate Hsome|].
    cbn -[Z.mul Z.add ether_base toString parse_digits].
    match goal with |- Ok (toString (_ + ?x)) = _ => change x with 0 end.
    reflexivity.
  - destruct (Nat.ltb_spec ether_decimals (String.length f)) as [Hgt|_]; [lia|].
    unfold pad_end_zeros. rewrite parse_digits_append, parse_digits_zeros.
    destruct (String.eqb_spec w "") as [->|Hwne]; reflexivity.
Qed.

Lemma wei_of_price_digits (p : Decimal) :
  all_digits (whole p) = true -> all_digits (fraction p) = true ->
  (String.length (fraction p) <= ether_decimals)%nat ->
  0 <= wei_of_price p /\ (inject_Z (wei_of_price p) == scaleToMinorUnits p)%Q.
Proof.
  intros Hw Hf Hlen. split.
  - unfold wei_of_price, ether_base.
    pose proof (parse_digits_nonneg _ 0 Hw (Z.le_refl 0)).
    pose proof (parse_digits_nonneg _ 0 Hf (Z.le_refl 0)).
    assert (0 <= 10 ^ Z.of_nat (ether_decimals - String.length (fraction p)))
      by (apply Z.pow_nonneg; lia).
    nia.
  - unfold wei_of_price, scaleToMinorUnits, decimal_value, ether_base.
    rewrite <- !parse_digits_positional.
    set (l := String.length (fraction p)) in *.
    replace (10 ^ 18) with (10 ^ Z.of_nat l * 10 ^ Z.of_nat (ether_decimals - l)).
    2:{ rewrite <- Z.pow_add_r by lia. f_equal. unfold ether_decimals in *. lia. }
    rewrite inject_Z_plus, !inject_Z_mult.
    assert (Hpos : ~ (inject_Z (10 ^ Z.of_nat l) == 0)%Q).
    { assert (0 < 10 ^ Z.of_nat l) by (apply Z.pow_pos_nonneg; lia).
      unfold Qeq. simpl. lia. }
    field. exact Hpos.
Qed.

(** A well-formed price and its two parts. *)
Lemma well_formed_decimal_parts (s : string) (p : Decimal) :
  well_formed_decimal s = true -> decimal_of s = Some p ->
  all_digits (whole p) = true /\ all_digits (fraction p) = true /\
  ((whole p =? "")%string && (fraction p =? "")%string) = false /\
  (s = whole p ++ String dot_char (fraction p) \/
   (s = whole p /\ fraction p = "")).
Proof.
  unfold well_formed_decimal. intros Hwf Hp. rewrite Hp in Hwf.
  apply andb_true_iff in Hwf as [Hwf Hsome]. apply andb_true_iff in Hwf as [Hw Hf].
  apply negb_true_iff in Hsome. repeat split; try assumption.
  unfold decimal_of in Hp.
  destruct (split_dot s) as [|w [|f [|x rest]]] eqn:Hs; try discriminate.
  - injection Hp as <-. right. split; [now apply split_dot_one | reflexivity].
  - injection Hp as <-. left. now apply split_dot_two.
Qed.

(** C1, as amended: for every well-formed non-negative decimal price with
    at most 18 digits after the point, digits before or after the point
    possibly missing, and every unsigned quantity, [calculatePayment]
    returns the decimal digits of an integer amount, and that amount is
    exactly the price scaled to minor units times the quantity: the
    equation holds in the rationals, with no rounding, however large the
    numbers are. *)
Theorem calculatePayment_exact (s : string) (p : Decimal) (q : N) :
  well_formed_decimal s = true ->
  decimal_of s = Some p ->
  (String.length (fraction p) <= ether_decimals)%nat ->
  exists amount : Z,
    calculatePayment s (uint_string q) = Ok (toString amount) /\
    0 <= amount /\
    numberToBN (toString amount) = Ok amount /\
    (inject_Z amount == scaleToMinorUnits p * inject_Z (Z.of_N q))%Q.
Proof.
  intros Hwf Hp Hlen.
  destruct (well_formed_decimal_parts s p Hwf Hp) as (Hw & Hf & Hsome & Hs).
  destruct (wei_of_price_digits p Hw Hf Hlen) as [Hwei Hscale].
  assert (HtoWei : toWei s = Ok (toString (wei_of_price p))).
  { destruct Hs as [-> | [-> Hnil]].
    - destruct p as [w f]. now apply toWei_parts.
    - destruct p as [w f]. cbn [whole fraction] in *. subst f.
      rewrite andb_true_r in Hsome. apply String.eqb_neq in Hsome.
      rewrite (toWei_integer w Hw Hsome). unfold wei_of_price. cbn [whole fraction].
      simpl parse_digits. now rewrite Z.mul_0_l, Z.add_0_r. }
  exists (wei_of_price p * Z.of_N q).
  assert (Hamount : 0 <= wei_of_price p * Z.of_N q).
  { apply Z.mul_nonneg_nonneg; [exact Hwei | apply N2Z.is_nonneg]. }
  repeat split.
  - unfold calculatePayment. rewrite HtoWei. cbn [bind_result].
    rewrite (toBN_toString _ Hwei). cbn [bind_result]. unfold uint_string.
    rewrite (toBN_toString _ (N2Z.is_nonneg q)). reflexivity.
  - exact Hamount.
  - now apply numberToBN_toString.
  - now rewrite inject_Z_mult, Hscale.
Qed.

Lemma calculatePayment_exact_witness :
  well_formed_decimal "1.5" = true /\
  exists amount : Z,
    calculatePayment "1.5" "1000000" = Ok (toString amount) /\
    0 <= amount /\
    numberToBN (toString amount) = Ok amount /\
    (inject_Z amount
     == scaleToMinorUnits {| whole := "1"; fraction := "5" |} * inject_Z 1000000)%Q.
Proof.
  split; [reflexivity|].
  apply (calculatePayment_exact "1.5" {| whole := "1"; fraction := "5" |} 1000000);
    [reflexivity | reflexivity | unfold ether_decimals; simpl; lia].
Defined.

(** C1, as the spec states it, fails at the price 1.0000000000000000000:
    it is a well-formed non-negative decimal and its value in minor units
    is the integer [10^18], yet [calculatePayment] returns nothing: the
    conversion throws on the nineteenth decimal place. *)
Lemma calculatePayment_rejects_nineteen_decimals :
  well_formed_decimal "1.0000000000000000000" = true /\
  decimal_of "1.0000000000000000000"
  = Some {| whole := "1"; fraction := "0000000000000000000" |} /\
  (scaleToMinorUnits {| whole := "1"; fraction := "0000000000000000000" |}
   == inject_Z (10 ^ 18))%Q /\
  calculatePayment "1.0000000000000000000" "1"
  = Throw (Error (toWei_msg "1.0000000000000000000" "too many decimal places")).
Proof.
  split; [reflexivity|]. split; [reflexivity|]. split; [|vm_compute; reflexivity].
  vm_compute. reflexivity.
Qed.

(** The two spellings without digits on one side of the point. *)
Example calculatePayment_bare_point :
  calculatePayment ".5" "4" = Ok "2000000000000000000" /\
  calculatePayment "5." "4" = Ok "20000000000000000000".
Proof. vm_compute. split; reflexivity. Qed.

(** The known large value of the spec: 1.5 ether a unit, a million
    units. *)
Example calculatePayment_large_value :
  calculatePayment "1.5" "1000000" = Ok "1500000000000000000000000".
Proof. vm_compute. reflexivity. Qed.

(** C10: for every unsigned price in wei and every unsigned quantity,
    [fromWei] prints the price in ether, [toWei] reads that back as the
    same price in wei, and [calculatePayment], which goes through this
    round trip, returns exactly price times quantity. *)
Theorem fromWei_toWei_roundtrip (price quantity : N) :
  exists ether,
    fromWei (uint_string price) = Ok ether /\
    toWei ether = Ok (uint_string price) /\
    calculatePayment ether (uint_string quantity)
    = Ok (uint_string (price * quantity)).
Proof.
  destruct (toWei_fromWei_uint price) as (ether & Hfrom & Hto).
  destruct (calculatePayment_uint price quantity) as (ether' & Hfrom' & Hpay).
  rewrite Hfrom in Hfrom'. injection Hfrom' as <-.
  exists ether. auto.
Qed.

(** A price with more than 18 decimal places has no amount in wei:
    [toWei] throws. *)
Example calculatePayment_too_many_decimals :
  calculatePayment "0.0000000000000000001" "1"
  = Throw (Error (toWei_msg "0.0000000000000000001" "too many decimal places")).
Proof. vm_compute. reflexivity. Qed.

Example fromWei_toWei_examples :
  fromWei "2000000000000000000" = Ok "2" /\
  toWei "2" = Ok "2000000000000000000" /\
  fromWei "1500000000000000001" = Ok "1.500000000000000001" /\
  toWei "1.500000000000000001" = Ok "1500000000000000001" /\
  fromWei "15" = Ok "0.000000000000000015" /\
  toWei "0.000000000000000015" = Ok "15".
Proof. vm_compute. repeat split. Qed.

End PaymentClaims.

(** ** The id field *)

Section IdFacts.

Lemma round_to_double_not_NaN (z : Z) : round_to_double z <> NaN.
Proof.
  unfold round_to_double. destruct (Z.abs z <? 2 ^ 53); [discriminate|].
  match goal with |- context [if ?c then Infinity _ else _] => destruct c end;
    discriminate.
Qed.

(** [parseInt] gives [NaN] exactly when no digit follows the white space
    and the sign at the start of the string. *)
Lemma parseInt_NaN_iff (s : string) : parseInt s = NaN <-> leading_digits s = "".
Proof.
  unfold parseInt, leading_digits.
  destruct (String.eqb_spec
              (digit_run (if starts_with minus_char (trim_start s)
                             || starts_with "+"%char (trim_start s)
                          then tail (trim_start s) else trim_start s)) "")
    as [Heq|Hne].
  - tauto.
  - split; [|contradiction]. intros H. now apply round_to_double_not_NaN in H.
Qed.

Example parseInt_examples :
  parseInt "7" = Num 7 /\ parseInt "  42" = Num 42 /\ parseInt "0" = Num 0 /\
  parseInt "-5" = Num (-5) /\ parseInt "12abc" = Num 12 /\ parseInt "1.5" = Num 1 /\
  parseInt "" = NaN /\ parseInt "abc" = NaN /\ parseInt "-" = NaN /\
  parseInt "9007199254740993" = Num 9007199254740992.
Proof. vm_compute. repeat split. Qed.

End IdFacts.

(** ** The claims on the small ledger *)

Section DemoRuns.

(** An accepted submission: the first product, a valid id. *)
Lemma handleSubmit_keeps_snapshot_witness :
  fst (attempt (Demo.env true) Demo.stock (Demo.page true "1") "startManufacturing") = Ok tt /\
  view (submit (Demo.env true) Demo.stock (Demo.page true "1") "startManufacturing")
  = Demo.page true "".
Proof.
  split; [reflexivity|].
  apply (handleSubmit_keeps_snapshot (Demo.env true) Demo.stock (Demo.page true "1") "startManufacturing").
  reflexivity.
Defined.

(** A submission that fails in the write: there is no product 7, and the
    contract reverts. *)
Lemma handleSubmit_failure_witness :
  fst (attempt (Demo.env true) Demo.stock (Demo.page true "7") "startShipping")
  = Throw (Error "execution reverted") /\
  let m := submit (Demo.env true) Demo.stock (Demo.page true "7") "startShipping" in
  medData (view m) = medData (Demo.page true "7") /\
  medStage (view m) = medStage (Demo.page true "7") /\
  id (view m) = "7" /\
  error (view m) = "Error in startShipping: execution reverted" /\
  user_messages (trace m) = ["Error in startShipping: execution reverted"].
Proof.
  split; [reflexivity|].
  exact (handleSubmit_failure (Demo.env true) Demo.stock (Demo.page true "7") "startShipping"
           (Error "execution reverted") eq_refl).
Defined.

Lemma handleSubmit_rejects_NaN_witness :
  parseInt "abc" = NaN /\
  let m := submit (Demo.env true) Demo.stock (Demo.page true "abc") "startManufacturing" in
  fst (attempt (Demo.env true) Demo.stock (Demo.page true "abc") "startManufacturing")
  = Throw (Error "Invalid Product ID") /\
  error (view m) = "Error in startManufacturing: Invalid Product ID" /\
  existsb is_ledger_call (trace m) = false.
Proof.
  split; [reflexivity|].
  exact (handleSubmit_rejects_NaN (Demo.env true) Demo.stock (Demo.page true "abc")
           "startManufacturing" eq_refl).
Defined.

(** C2, as the spec states it, fails at the id "0": it is not positive,
    yet the handler reports no invalid id and calls the write method of
    the contract. *)
Lemma handleSubmit_accepts_nonpositive_id :
  let m := submit (Demo.env true) Demo.stock (Demo.page true "0") "startManufacturing" in
  parseInt "0" = Num 0 /\
  error (view m) <> "Error in startManufacturing: Invalid Product ID" /\
  filter is_write (trace m)
  = [EvSend "startManufacturing" (Num 0)
       {| from := Some "0xA11CE"; gas := 3000000; value := "0" |}].
Proof.
  cbv zeta. split; [reflexivity|]. split; [|reflexivity].
  vm_compute. discriminate.
Qed.

(** The same for a negative id and for text that only starts with
    digits. *)
Example handleSubmit_accepts_other_ids :
  existsb is_write (trace (submit (Demo.env true) Demo.stock (Demo.page true "-5") "startShipping")) = true /\
  existsb is_write (trace (submit (Demo.env true) Demo.stock (Demo.page true "2abc") "startShipping")) = true.
Proof. split; reflexivity. Qed.

Lemma handleSubmit_dispatch_witness :
  isNaN (parseInt "2") = false /\
  supplyChain (Demo.page true "2") = Some (Demo.contract true) /\
  methods (Demo.contract true) "addMedicine" = None /\
  fst (attempt (Demo.env true) Demo.stock (Demo.page true "2") "addMedicine")
  = Throw (Error "Method addMedicine does not exist on the smart contract.") /\
  existsb is_ledger_call (trace (submit (Demo.env true) Demo.stock (Demo.page true "2") "addMedicine"))
  = false.
Proof.
  split; [reflexivity|]. split; [reflexivity|]. split; [reflexivity|].
  apply (handleSubmit_dispatch (Demo.env true) Demo.stock (Demo.page true "2") "addMedicine"
           (Demo.contract true) eq_refl eq_refl).
  reflexivity.
Defined.

(** C6, as the spec states it, fails at the name "MedicineStock": it is
    none of the four operations of the page, yet it is a function of the
    contract, so the handler resolves it and sends a transaction to it;
    the failure that follows is the rejection by the ledger, not an
    unknown operation. *)
Lemma handleSubmit_resolves_any_method :
  let m := submit (Demo.env true) Demo.stock (Demo.page true "1") "MedicineStock" in
  ~ In "MedicineStock" form_operations /\
  filter is_write (trace m)
  = [EvSend "MedicineStock" (Num 1)
       {| from := Some "0xA11CE"; gas := 3000000; value := "10000000000000000000" |}] /\
  error (view m) = "Error in MedicineStock: execution reverted" /\
  error (view m)
  <> "Error in MedicineStock: Method MedicineStock does not exist on the smart contract.".
Proof.
  cbv zeta. split; [|split; [reflexivity | split; [reflexivity|]]].
  - cbn [In form_operations]. intuition discriminate.
  - vm_compute. discriminate.
Qed.

Lemma handleSubmit_gas_fallback_witness :
  let m := submit (Demo.env false) Demo.stock (Demo.page false "1") "startManufacturing" in
  estimateGas (Demo.stage_method false) (Num 1) (Some "0xA11CE") Demo.stock
  = (Throw (Error "estimation unavailable"), Demo.stock) /\
  filter is_write (trace m)
  = [EvSend "startManufacturing" (Num 1)
       {| from := Some "0xA11CE"; gas := 3000000; value := "10000000000000000000" |}] /\
  fst (attempt (Demo.env false) Demo.stock (Demo.page false "1") "startManufacturing") = Ok tt /\
  error (view m) = "" /\
  user_messages (trace m) = ["Successfully called startManufacturing with result: 0xfeed"].
Proof.
  split; [reflexivity|].
  exact (handleSubmit_gas_fallback (Demo.env false) Demo.stock (Demo.page false "1")
           "startManufacturing" (Demo.contract false) (Demo.stage_method false)
           Demo.aspirin Demo.ethereum ["0xA11CE"] (Error "estimation unavailable")
           Demo.stock Demo.stock Demo.stock eq_refl eq_refl eq_refl eq_refl eq_refl eq_refl eq_refl).
Defined.

(** The example of the spec: the ledger holds product 1 at 2 ether a
    unit, 5 units, while the page still shows the price of 1 wei it loaded
    earlier; the write carries 10 ether. *)
Lemma handleSubmit_payment_witness :
  let m := submit (Demo.env true) Demo.stock (Demo.page true "1") "startManufacturing" in
  Stock.price Demo.aspirin = 2000000000000000000%N /\
  Stock.quantity Demo.aspirin = 5%N /\
  In (EvMedicineStock (Num 1)) (trace m) /\
  sent_values (trace m) = ["10000000000000000000"].
Proof.
  split; [reflexivity|]. split; [reflexivity|].
  exact (handleSubmit_payment (Demo.env true) Demo.stock (Demo.page true "1") "startManufacturing"
           (Demo.contract true) (Demo.stage_method true) Demo.aspirin Demo.ethereum
           ["0xA11CE"] Demo.stock Demo.stock
           (medData (Demo.page true "1")) (medStage (Demo.page true "1"))
           eq_refl eq_refl eq_refl eq_refl eq_refl eq_refl).
Defined.

(** A ledger with three products. *)
Lemma demo_catalog_reads :
  catalog_reads (Demo.contract true) 0 3 Demo.stock
    [(Demo.aspirin, "Medicine Ordered"); (Demo.insulin, "Medicine Ordered");
     (Demo.serum, "Medicine Ordered")]
    Demo.stock.
Proof.
  apply reads_next with (w1 := Demo.stock) (w2 := Demo.stock); [reflexivity | reflexivity|].
  apply reads_next with (w1 := Demo.stock) (w2 := Demo.stock); [reflexivity | reflexivity|].
  apply reads_next with (w1 := Demo.stock) (w2 := Demo.stock); [reflexivity | reflexivity|].
  apply reads_done.
Qed.

Lemma loadBlockchainData_reads_witness :
  let r := load (Demo.env true) Demo.stock initial_state in
  fst r = Ok tt /\
  filter is_catalog_read (trace (snd r))
  = [EvMedicineCtr; EvMedicineStock (Num 1); EvShowStage (Num 1);
     EvMedicineStock (Num 2); EvShowStage (Num 2);
     EvMedicineStock (Num 3); EvShowStage (Num 3)] /\
  medData (view (snd r))
  = [(1, decode Demo.aspirin); (2, decode Demo.insulin); (3, decode Demo.serum)] /\
  medStage (view (snd r))
  = [(1, "Medicine Ordered"); (2, "Medicine Ordered"); (3, "Medicine Ordered")].
Proof.
  destruct (loadBlockchainData_reads (Demo.env true) Demo.stock (Demo.web3 true)
              ["0xA11CE"] 5777 "0xC0FFEE" 3 Demo.stock Demo.stock Demo.stock Demo.stock
              _ eq_refl eq_refl eq_refl eq_refl eq_refl demo_catalog_reads)
    as (_ & _ & Hrun).
  cbv zeta. rewrite (Hrun initial_state). cbn [fst snd trace view medData medStage].
  split; [reflexivity|]. split; [reflexivity|]. split; reflexivity.
Defined.

(** A ledger without products. *)
Example loadBlockchainData_empty :
  let r := load (Demo.env true) [] initial_state in
  fst r = Ok tt /\
  filter is_catalog_read (trace (snd r)) = [EvMedicineCtr] /\
  medData (view (snd r)) = JsObject.empty /\
  medStage (view (snd r)) = JsObject.empty /\
  render (view (snd r)) = Catalog (Some "0xA11CE") [] form_operations None.
Proof. repeat split. Qed.

Lemma loadBlockchainData_not_deployed_witness :
  let m := snd (load Demo.env_elsewhere Demo.stock (Demo.page true "")) in
  SupplyChainABI_networks Demo.env_elsewhere 5777 = None /\
  trace m = [EvSetState (setLoader true); EvGetAccounts;
             EvSetState (setCurrentAccount (Some "0xA11CE")); EvGetId;
             EvAlert not_deployed_msg] /\
  user_messages (trace m) = [not_deployed_msg] /\
  render (view m) = Loading /\
  medData (view m) = medData (Demo.page true "") /\
  medStage (view m) = medStage (Demo.page true "").
Proof.
  split; [reflexivity|].
  exact (loadBlockchainData_not_deployed Demo.env_elsewhere Demo.stock (Demo.page true "")
           (Demo.web3 true) ["0xA11CE"] 5777 Demo.stock Demo.stock
           eq_refl eq_refl eq_refl eq_refl).
Defined.

End DemoRuns.

(** * Further properties of the component *)

(** ** The submit handler, step by step *)

Section SubmitPaths.

Context {World : Type}.

Implicit Types (env : Env World) (st : ViewState World) (w : World).

Ltac unfold_machine :=
  cbv beta iota zeta delta
    [bind ret throw try_catch emit set_state await lift defined machine_at
     submit attempt handleSubmit handleSubmit_try world trace view fst snd
     decode Medicine.price Medicine.quantity].

Ltac run_cases :=
  repeat (cbv beta iota zeta;
          match goal with
          | |- context [match ?x with _ => _ end] =>
              lazymatch x with
              | context [match _ with _ => _ end] => fail
              | _ => destruct x eqn:?
              end
          end).

Ltac read_trace :=
  cbn [app existsb filter touches_catalog is_ledger_call is_write orb
       user_messages user_message sent_values sent_gas sent_methods String.eqb
       value gas apply_update medData medStage id error currentAccount
       loader supplyChain].


(** X2: when the read of the product throws, the submission ends there:
    the wallet is not asked, nothing is estimated, nothing is written, and
    the error line names the method and the message of the read. *)
Theorem handleSubmit_read_failure env w st methodName
    (contract : Contract World) (method : Method World) (e : exn) (w1 : World) :
  isNaN (parseInt (id st)) = false ->
  supplyChain st = Some contract ->
  methods contract methodName = Some method ->
  MedicineStock_call contract (parseInt (id st)) w = (Throw e, w1) ->
  let m := submit env w st methodName in
  filter is_ledger_call (trace m) = [EvMedicineStock (parseInt (id st))] /\
  world m = w1 /\
  error (view m) = "Error in " ++ methodName ++ ": " ++ message e /\
  id (view m) = id st.
Proof.
  intros Hnum Hcontract Hmethod Hread.
  unfold_machine. rewrite Hnum, Hcontract. cbv beta iota zeta.
  rewrite Hmethod, Hread. cbv beta iota zeta. read_trace. auto.
Qed.

(** X3: when the product was read but the wallet is missing, or refuses to
    name its accounts, nothing is estimated and nothing is written; the
    error line names the method and the cause. *)
Theorem handleSubmit_wallet_failure env w st methodName
    (contract : Contract World) (method : Method World) (stock : Stock.t)
    (w1 : World) :
  isNaN (parseInt (id st)) = false ->
  supplyChain st = Some contract ->
  methods contract methodName = Some method ->
  MedicineStock_call contract (parseInt (id st)) w = (Ok stock, w1) ->
  let m := submit env w st methodName in
  match window_ethereum env with
  | None =>
      filter is_ledger_call (trace m) = [EvMedicineStock (parseInt (id st))] /\
      error (view m) = "Error in " ++ methodName ++ ": " ++ undefined_msg "request"
  | Some ethereum =>
      forall (e : exn) (w2 : World),
        request_eth_requestAccounts ethereum w1 = (Throw e, w2) ->
        filter is_ledger_call (trace m)
        = [EvMedicineStock (parseInt (id st)); EvRequestAccounts] /\
        error (view m) = "Error in " ++ methodName ++ ": " ++ message e
  end.
Proof.
  intros Hnum Hcontract Hmethod Hread.
  destruct (calculatePayment_uint (Stock.price stock) (Stock.quantity stock))
    as (ether & Hfrom & Hpay).
  cbv zeta.
  destruct (window_ethereum env) as [ethereum|] eqn:Hwallet.
  - intros e w2 Hrequest.
    unfold_machine. rewrite Hnum, Hcontract. cbv beta iota zeta.
    rewrite Hmethod, Hread. cbv beta iota zeta.
    rewrite Hfrom, Hpay, Hwallet. cbv beta iota zeta.
    rewrite Hrequest. cbv beta iota zeta. read_trace. auto.
  - unfold_machine. rewrite Hnum, Hcontract. cbv beta iota zeta.
    rewrite Hmethod, Hread. cbv beta iota zeta.
    rewrite Hfrom, Hpay, Hwallet. cbv beta iota zeta. read_trace. auto.
Qed.

(** X4: when the estimate succeeds, the write carries the estimated gas,
    not the fallback.  An accepted write is reported in an alert with the
    hash of the transaction, the id field is cleared and the error line
    is empty; a rejected write leaves the id field as typed and puts the
    rejection into the error line. *)
Theorem handleSubmit_uses_estimate env w st methodName
    (contract : Contract World) (method : Method World) (stock : Stock.t)
    (ethereum : Ethereum World) (accounts : list string) (gasEstimate : Z)
    (w1 w2 w3 : World) :
  isNaN (parseInt (id st)) = false ->
  supplyChain st = Some contract ->
  methods contract methodName = Some method ->
  MedicineStock_call contract (parseInt (id st)) w = (Ok stock, w1) ->
  window_ethereum env = Some ethereum ->
  request_eth_requestAccounts ethereum w1 = (Ok accounts, w2) ->
  estimateGas method (parseInt (id st)) (hd_error accounts) w2 = (Ok gasEstimate, w3) ->
  let m := submit env w st methodName in
  let options := {| from := hd_error accounts;
                    gas := gasEstimate;
                    value := uint_string (Stock.price stock * Stock.quantity stock) |} in
  filter is_write (trace m) = [EvSend methodName (parseInt (id st)) options] /\
  match send method (parseInt (id st)) options w3 with
  | (Ok receipt, w4) =>
      world m = w4 /\
      id (view m) = "" /\
      error (view m) = "" /\
      user_messages (trace m)
      = ["Successfully called " ++ methodName ++ " with result: "
         ++ transactionHash receipt]
  | (Throw e, w4) =>
      world m = w4 /\
      id (view m) = id st /\
      error (view m) = "Error in " ++ methodName ++ ": " ++ message e /\
      user_messages (trace m) = ["Error in " ++ methodName ++ ": " ++ message e]
  end.
Proof.
  intros Hnum Hcontract Hmethod Hread Hwallet Haccounts Hestimate.
  destruct (calculatePayment_uint (Stock.price stock) (Stock.quantity stock))
    as (ether & Hfrom & Hpay).
  unfold_machine. rewrite Hnum, Hcontract. cbv beta iota zeta.
  rewrite Hmethod, Hread. cbv beta iota zeta.
  rewrite Hfrom, Hpay, Hwallet. cbv beta iota zeta.
  rewrite Haccounts. cbv beta iota zeta.
  rewrite Hestimate. cbv beta iota zeta.
  destruct (send method _ _ w3) as [[receipt|e'] w4]; read_trace; auto.
Qed.

End SubmitPaths.

(** ** The loader on every path *)

Section LoadPaths.

Context {World : Type}.

Implicit Types (env : Env World) (st : ViewState World) (w : World).

Ltac unfold_load :=
  cbv beta iota zeta delta
    [load loadBlockchainData bind ret throw emit set_state await defined
     machine_at world trace view fst snd].

Lemma get_set_same {V : Type} (k : Z) (v : V) (o : JsObject.t V) :
  JsObject.get k (JsObject.set k v o) = Some v.
Proof.
  induction o as [|[k' v'] o IH]; simpl.
  - now rewrite Z.eqb_refl.
  - destruct (Z.ltb_spec k k'); [simpl; now rewrite Z.eqb_refl|].
    destruct (Z.eqb_spec k k') as [->|Hne]; simpl.
    + now rewrite Z.eqb_refl.
    + destruct (Z.eqb_spec k k'); [contradiction | exact IH].
Qed.

Lemma get_set_other {V : Type} (k k0 : Z) (v : V) (o : JsObject.t V) :
  k0 <> k -> JsObject.get k0 (JsObject.set k v o) = JsObject.get k0 o.
Proof.
  intros Hne. induction o as [|[k' v'] o IH]; simpl.
  - destruct (Z.eqb_spec k0 k); [contradiction | reflexivity].
  - destruct (Z.ltb_spec k k').
    + simpl. destruct (Z.eqb_spec k0 k); [contradiction | reflexivity].
    + destruct (Z.eqb_spec k k') as [->|Hkk']; simpl.
      * destruct (Z.eqb_spec k0 k'); [contradiction | reflexivity].
      * destruct (Z.eqb_spec k0 k'); [reflexivity | exact IH].
Qed.

Lemma sent_methods_app (t u : list (Event World)) :
  sent_methods (t ++ u) = (sent_methods t ++ sent_methods u)%list.
Proof.
  induction t as [|ev t IH]; simpl; [reflexivity|].
  destruct ev; simpl; now rewrite ?IH.
Qed.

Lemma user_messages_append (t u : list (Event World)) :
  user_messages (t ++ u) = (user_messages t ++ user_messages u)%list.
Proof.
  induction t as [|ev t IH]; simpl; [reflexivity|].
  destruct (user_message ev); simpl; now rewrite IH.
Qed.

Lemma catalog_reads_silent (t : list (Event World)) :
  forallb is_catalog_read t = true ->
  user_messages t = [] /\ sent_methods t = [].
Proof.
  induction t as [|ev t IH]; simpl; [auto|].
  intros H. apply andb_true_iff in H as [Hev Ht].
  destruct (IH Ht) as [IH1 IH2].
  destruct ev; try discriminate Hev; simpl; auto.
Qed.

(** The loop on any ledger: it only reads, it leaves the state of the
    page alone, and when it completes the two objects have gained the
    keys of the ids it visited. *)
Lemma load_stock_run (supplychain : Contract World) (remaining : nat) :
  forall (i : Z) (med : JsObject.t Medicine.t) (medStage : JsObject.t string)
         (m : Machine World),
    (forall k, In k (JsObject.keys med) -> k < i + 1) ->
    (forall k, In k (JsObject.keys medStage) -> k < i + 1) ->
    let r := load_stock supplychain remaining i med medStage m in
    (exists t, trace (snd r) = (trace m ++ t)%list /\ forallb is_catalog_read t = true) /\
    view (snd r) = view m /\
    match fst r with
    | Ok (med', medStage') =>
        JsObject.keys med' = (JsObject.keys med ++ ids_from i remaining)%list /\
        JsObject.keys medStage' = (JsObject.keys medStage ++ ids_from i remaining)%list
    | Throw _ => True
    end.
Proof.
  induction remaining as [|remaining IH]; intros i med medStage m Hmed HmedStage.
  - simpl. rewrite !app_nil_r.
    split; [exists []; now rewrite app_nil_r | auto].
  - cbn [load_stock]. cbv zeta. unfold bind, await. cbn [world trace view].
    destruct (MedicineStock_call supplychain (Num (i + 1)) (world m))
      as [[stock|e] w1].
    2:{ cbn [fst snd trace view].
        split; [eexists; split; reflexivity | auto]. }
    cbn [world trace view].
    destruct (showStage_call supplychain (Num (i + 1)) w1) as [[stage|e] w2].
    2:{ cbn [fst snd trace view].
        rewrite <- app_assoc.
        split; [eexists; split; reflexivity | auto]. }
    specialize (IH (i + 1) (JsObject.set (i + 1) (decode stock) med)
                  (JsObject.set (i + 1) stage medStage)
                  {| world := w2;
                     trace := (trace m ++ [EvMedicineStock (Num (i + 1))])
                              ++ [EvShowStage (Num (i + 1))];
                     view := view m |}).
    cbv zeta in IH. cbn [trace view] in IH.
    destruct IH as ((t & Ht & Hreads) & Hview & Hkeys).
    + intros k. rewrite (keys_set_above _ _ _ Hmed), in_app_iff. simpl.
      intros [Hin | [<- | []]]; [apply Hmed in Hin|]; lia.
    + intros k. rewrite (keys_set_above _ _ _ HmedStage), in_app_iff. simpl.
      intros [Hin | [<- | []]]; [apply HmedStage in Hin|]; lia.
    + split; [|split].
      * exists ([EvMedicineStock (Num (i + 1)); EvShowStage (Num (i + 1))] ++ t)%list.
        rewrite Ht, <- !app_assoc. split; [reflexivity|]. simpl. exact Hreads.
      * exact Hview.
      * destruct (fst (load_stock _ _ _ _ _ _)) as [[med' medStage']|e]; [|exact I].
        destruct Hkeys as [Hk1 Hk2].
        rewrite Hk1, Hk2, (keys_set_above _ _ _ Hmed), (keys_set_above _ _ _ HmedStage).
        cbn [ids_from]. now rewrite <- !app_assoc.
Qed.

(** Every run of the loader: it never writes; when it throws, or finds no
    contract, the page keeps its snapshot and the loading flag stays set;
    when it builds a snapshot, the flag is cleared, the contract is kept
    and both objects have the keys 1 to [n], for some [n]. *)
Lemma load_run env w st :
  let r := load env w st in
  let v := view (snd r) in
  sent_methods (trace (snd r)) = [] /\
  match fst r with
  | Throw _ =>
      medData v = medData st /\ medStage v = medStage st /\ loader v = true /\
      user_messages (trace (snd r)) = []
  | Ok _ =>
      (loader v = true /\ medData v = medData st /\ medStage v = medStage st /\
       user_messages (trace (snd r)) = [not_deployed_msg]) \/
      (loader v = false /\ (exists c, supplyChain v = Some c) /\
       user_messages (trace (snd r)) = [] /\
       exists n : nat,
         JsObject.keys (medData v) = map Z.of_nat (seq 1 n) /\
         JsObject.keys (medStage v) = map Z.of_nat (seq 1 n))
  end.
Proof.
  unfold_load.
  destruct (window_web3 env) as [web3|]; cbv beta iota zeta; [|cbn; auto].
  destruct (getAccounts web3 w) as [[accounts|e] w1]; cbv beta iota zeta; [|cbn; auto].
  destruct (getId web3 w1) as [[networkId|e] w2]; cbv beta iota zeta; [|cbn; auto].
  destruct (SupplyChainABI_networks env networkId) as [address|];
    cbv beta iota zeta; [|cbn; split; [reflexivity | left; auto]].
  destruct (medicineCtr_call (eth_Contract web3 address) w2) as [[n|e] w3];
    cbv beta iota zeta; [|cbn; auto].
  match goal with
  | |- context [load_stock ?sc ?k ?i ?a ?b ?m] =>
      pose proof (load_stock_run sc k i a b m) as Hrun;
      destruct (load_stock sc k i a b m) as [[[med' medStage']|e] [w4 t4 v4]]
  end.
  - destruct Hrun as ((t & Ht & Hreads) & Hview & Hk1 & Hk2);
      [intros k [] | intros k [] |].
    cbn [fst snd trace view] in Ht, Hview, Hk1, Hk2.
    destruct (catalog_reads_silent t Hreads) as [Hs1 Hs2].
    cbv beta iota zeta. subst t4 v4.
    rewrite !sent_methods_app, !user_messages_append, Hs1, Hs2.
    cbn. split; [reflexivity|]. right. repeat split; eauto.
    exists (N.to_nat n). rewrite <- (ids_from_seq 0). auto.
  - destruct Hrun as ((t & Ht & Hreads) & Hview & _); [intros k [] | intros k [] |].
    cbn [fst snd trace view] in Ht, Hview.
    destruct (catalog_reads_silent t Hreads) as [Hs1 Hs2].
    cbv beta iota zeta. subst t4 v4.
    rewrite !sent_methods_app, !user_messages_append, Hs1, Hs2.
    cbn. auto.
Qed.

(** X5: when the load throws, at the provider, at the counter or at any
    read of a product or a stage, nothing of what it has read reaches the
    page: [medData] and [medStage] are what they were, no message is
    shown, and the loading flag stays set, so the page shows the loading
    notice. *)
Theorem loadBlockchainData_failure env w st (e : exn) :
  fst (load env w st) = Throw e ->
  let m := snd (load env w st) in
  medData (view m) = medData st /\
  medStage (view m) = medStage st /\
  user_messages (trace m) = [] /\
  render (view m) = Loading.
Proof.
  intros Hthrow. pose proof (load_run env w st) as Hrun. cbv zeta in *.
  rewrite Hthrow in Hrun. destruct Hrun as (_ & Hd & Hs & Hl & Hm).
  unfold render. rewrite Hl. auto.
Qed.

(** X6: when the load returns, one of two things has happened.  Either it
    found no contract: it showed the alert, the snapshot is what it was and
    the page shows the loading notice.  Or it built a snapshot: the page
    shows the catalog, the contract is set, no message was shown, and
    [medData] and [medStage] have the same keys, 1 to [n] in order. *)
Theorem loadBlockchainData_completed env w st :
  fst (load env w st) = Ok tt ->
  let m := snd (load env w st) in
  (render (view m) = Loading /\
   medData (view m) = medData st /\ medStage (view m) = medStage st /\
   user_messages (trace m) = [not_deployed_msg]) \/
  (loader (view m) = false /\
   (exists contract, supplyChain (view m) = Some contract) /\
   user_messages (trace m) = [] /\
   exists n : nat,
     JsObject.keys (medData (view m)) = map Z.of_nat (seq 1 n) /\
     JsObject.keys (medStage (view m)) = map Z.of_nat (seq 1 n)).
Proof.
  intros Hok. pose proof (load_run env w st) as Hrun. cbv zeta in *.
  rewrite Hok in Hrun. destruct Hrun as (_ & [(Hl & Hd & Hs & Hm) | Hbuilt]).
  - left. unfold render. rewrite Hl. auto.
  - right. exact Hbuilt.
Qed.

(** X7: without [window.web3] the load throws at once: the loading flag
    is set, no call reaches the provider or the ledger, and the page
    shows the loading notice. *)
Theorem loadBlockchainData_without_web3 env w st :
  window_web3 env = None ->
  load env w st
  = (Throw (Error (undefined_msg "eth")),
     {| world := w;
        trace := [EvSetState (setLoader true)];
        view := apply_update (setLoader true) st |}) /\
  render (apply_update (setLoader true) st) = Loading.
Proof.
  intros Hnone. unfold_load. rewrite Hnone. split; reflexivity.
Qed.

(** The loop on a ledger whose reads answer by the id alone and change
    nothing: the objects it builds hold, under each id it visited, what
    the ledger answered for that id. *)
Lemma load_stock_pure (supplychain : Contract World)
    (stockOf : Z -> Stock.t) (stageOf : Z -> string) (remaining : nat) :
  forall (i : Z) (med : JsObject.t Medicine.t) (medStage : JsObject.t string) (w : World),
    (forall k w, i < k <= i + Z.of_nat remaining ->
       MedicineStock_call supplychain (Num k) w = (Ok (stockOf k), w)) ->
    (forall k w, i < k <= i + Z.of_nat remaining ->
       showStage_call supplychain (Num k) w = (Ok (stageOf k), w)) ->
    (forall k, In k (JsObject.keys med) -> k < i + 1) ->
    (forall k, In k (JsObject.keys medStage) -> k < i + 1) ->
    exists med' medStage',
      JsObject.keys med' = (JsObject.keys med ++ ids_from i remaining)%list /\
      JsObject.keys medStage' = (JsObject.keys medStage ++ ids_from i remaining)%list /\
      (forall k, JsObject.get k med'
                 = if (i <? k) && (k <=? i + Z.of_nat remaining)
                   then Some (decode (stockOf k)) else JsObject.get k med) /\
      (forall k, JsObject.get k medStage'
                 = if (i <? k) && (k <=? i + Z.of_nat remaining)
                   then Some (stageOf k) else JsObject.get k medStage) /\
      forall (t : list (Event World)) (v : ViewState World),
        load_stock supplychain remaining i med medStage
                   {| world := w; trace := t; view := v |}
        = (Ok (med', medStage'),
           {| world := w;
              trace := t ++ paired_reads (ids_from i remaining);
              view := v |}).
Proof.
  induction remaining as [|remaining IH]; intros i med medStage w Hstock Hstage Hmed HmedStage.
  - exists med, medStage. simpl. rewrite !app_nil_r.
    repeat split.
    + intros k. destruct (Z.ltb_spec i k), (Z.leb_spec k (i + 0)); simpl; auto; lia.
    + intros k. destruct (Z.ltb_spec i k), (Z.leb_spec k (i + 0)); simpl; auto; lia.
    + intros t v. unfold ret. now rewrite app_nil_r.
  - destruct (IH (i + 1) (JsObject.set (i + 1) (decode (stockOf (i + 1))) med)
                 (JsObject.set (i + 1) (stageOf (i + 1)) medStage) w)
      as (med' & medStage' & Hk1 & Hk2 & Hg1 & Hg2 & Hrun).
    + intros k w0 Hk. apply Hstock. lia.
    + intros k w0 Hk. apply Hstage. lia.
    + intros k. rewrite (keys_set_above _ _ _ Hmed), in_app_iff. simpl.
      intros [Hin | [<- | []]]; [apply Hmed in Hin|]; lia.
    + intros k. rewrite (keys_set_above _ _ _ HmedStage), in_app_iff. simpl.
      intros [Hin | [<- | []]]; [apply HmedStage in Hin|]; lia.
    + exists med', medStage'.
      rewrite Hk1, Hk2, (keys_set_above _ _ _ Hmed), (keys_set_above _ _ _ HmedStage).
      cbn [ids_from]. rewrite <- !app_assoc. cbn [app].
      split; [reflexivity|]. split; [reflexivity|]. split; [|split].
      * intros k. rewrite Hg1.
        destruct (Z.ltb_spec (i + 1) k), (Z.leb_spec k (i + 1 + Z.of_nat remaining)),
                 (Z.ltb_spec i k), (Z.leb_spec k (i + Z.of_nat (S remaining)));
          cbn [andb]; try lia; try reflexivity.
        all: try (rewrite get_set_other by lia; reflexivity).
        all: replace k with (i + 1) by lia; apply get_set_same.
      * intros k. rewrite Hg2.
        destruct (Z.ltb_spec (i + 1) k), (Z.leb_spec k (i + 1 + Z.of_nat remaining)),
                 (Z.ltb_spec i k), (Z.leb_spec k (i + Z.of_nat (S remaining)));
          cbn [andb]; try lia; try reflexivity.
        all: try (rewrite get_set_other by lia; reflexivity).
        all: replace k with (i + 1) by lia; apply get_set_same.
      * intros t v. cbn [load_stock]. unfold bind at 1, await at 1.
        cbn [world trace view]. rewrite Hstock by lia.
        unfold bind at 1, await at 1. cbn [world trace view].
        rewrite Hstage by lia. rewrite Hrun. unfold paired_reads. cbn [flat_map].
        now rewrite <- !app_assoc.
Qed.

(** The whole load on such a ledger. *)
Lemma load_pure env w (web3 : Web3 World) (accounts : list string)
    (networkId : Z) (address : string) (n : N) (w1 w2 w3 : World)
    (stockOf : Z -> Stock.t) (stageOf : Z -> string) :
  window_web3 env = Some web3 ->
  getAccounts web3 w = (Ok accounts, w1) ->
  getId web3 w1 = (Ok networkId, w2) ->
  SupplyChainABI_networks env networkId = Some address ->
  medicineCtr_call (eth_Contract web3 address) w2 = (Ok n, w3) ->
  (forall k w, 1 <= k <= Z.of_N n ->
     MedicineStock_call (eth_Contract web3 address) (Num k) w = (Ok (stockOf k), w)) ->
  (forall k w, 1 <= k <= Z.of_N n ->
     showStage_call (eth_Contract web3 address) (Num k) w = (Ok (stageOf k), w)) ->
  exists med' medStage',
    JsObject.keys med' = map Z.of_nat (seq 1 (N.to_nat n)) /\
    (forall k, JsObject.get k med'
               = if (1 <=? k) && (k <=? Z.of_N n)
                 then Some (decode (stockOf k)) else None) /\
    (forall k, JsObject.get k medStage'
               = if (1 <=? k) && (k <=? Z.of_N n) then Some (stageOf k) else None) /\
    forall st,
      fst (load env w st) = Ok tt /\
      world (snd (load env w st)) = w3 /\
      view (snd (load env w st))
      = {| currentAccount := hd_error accounts;
           loader := false;
           supplyChain := Some (eth_Contract web3 address);
           medData := med';
           medStage := medStage';
           id := id st;
           error := error st |}.
Proof.
  intros Hweb3 Haccounts Hid Hnet Hctr Hstock Hstage.
  destruct (load_stock_pure (eth_Contract web3 address) stockOf stageOf (N.to_nat n) 0
              JsObject.empty JsObject.empty w3)
    as (med' & medStage' & Hk1 & _ & Hg1 & Hg2 & Hrun).
  - intros k w0 Hk. apply Hstock. lia.
  - intros k w0 Hk. apply Hstage. lia.
  - intros k [].
  - intros k [].
  - exists med', medStage'. split; [|split; [|split]].
    + rewrite Hk1. apply (ids_from_seq 0).
    + intros k. rewrite Hg1. cbn [JsObject.get JsObject.empty].
      replace (0 + Z.of_nat (N.to_nat n)) with (Z.of_N n) by lia.
      destruct (Z.ltb_spec 0 k), (Z.leb_spec 1 k); try lia; reflexivity.
    + intros k. rewrite Hg2. cbn [JsObject.get JsObject.empty].
      replace (0 + Z.of_nat (N.to_nat n)) with (Z.of_N n) by lia.
      destruct (Z.ltb_spec 0 k), (Z.leb_spec 1 k); try lia; reflexivity.
    + intros st. unfold_load. rewrite Hweb3. cbv beta iota zeta.
      rewrite Haccounts. cbv beta iota zeta. rewrite Hid. cbv beta iota zeta.
      rewrite Hnet. cbv beta iota zeta. rewrite Hctr. cbv beta iota zeta.
      rewrite Hrun. cbn. auto.
Qed.

(** X8: on a ledger whose reads answer by the id alone, a completed load
    stores under every id from 1 to the counter the product that the
    ledger holds for that id, decoded, and the stage that the ledger
    reports for it; under every other key it stores nothing. *)
Theorem loadBlockchainData_contents env w st (web3 : Web3 World)
    (accounts : list string) (networkId : Z) (address : string) (n : N)
    (w1 w2 w3 : World) (stockOf : Z -> Stock.t) (stageOf : Z -> string) :
  window_web3 env = Some web3 ->
  getAccounts web3 w = (Ok accounts, w1) ->
  getId web3 w1 = (Ok networkId, w2) ->
  SupplyChainABI_networks env networkId = Some address ->
  medicineCtr_call (eth_Contract web3 address) w2 = (Ok n, w3) ->
  (forall k w, 1 <= k <= Z.of_N n ->
     MedicineStock_call (eth_Contract web3 address) (Num k) w = (Ok (stockOf k), w)) ->
  (forall k w, 1 <= k <= Z.of_N n ->
     showStage_call (eth_Contract web3 address) (Num k) w = (Ok (stageOf k), w)) ->
  let v := view (snd (load env w st)) in
  forall k,
    JsObject.get k (medData v)
    = (if (1 <=? k) && (k <=? Z.of_N n) then Some (decode (stockOf k)) else None) /\
    JsObject.get k (medStage v)
    = (if (1 <=? k) && (k <=? Z.of_N n) then Some (stageOf k) else None).
Proof.
  intros Hweb3 Haccounts Hid Hnet Hctr Hstock Hstage v k. subst v.
  destruct (load_pure env w web3 accounts networkId address n w1 w2 w3 stockOf stageOf
              Hweb3 Haccounts Hid Hnet Hctr Hstock Hstage)
    as (med' & medStage' & _ & Hg1 & Hg2 & Hload).
  destruct (Hload st) as (_ & _ & ->). cbn [medData medStage]. auto.
Qed.

(** X9: after such a load the page shows the catalog: the first account
    of the provider, one row for each id from 1 to the counter, in that
    order, each with the product and the stage that the ledger holds for
    the id, the four forms, and the error line as it was. *)
Theorem render_after_load env w st (web3 : Web3 World)
    (accounts : list string) (networkId : Z) (address : string) (n : N)
    (w1 w2 w3 : World) (stockOf : Z -> Stock.t) (stageOf : Z -> string) :
  window_web3 env = Some web3 ->
  getAccounts web3 w = (Ok accounts, w1) ->
  getId web3 w1 = (Ok networkId, w2) ->
  SupplyChainABI_networks env networkId = Some address ->
  medicineCtr_call (eth_Contract web3 address) w2 = (Ok n, w3) ->
  (forall k w, 1 <= k <= Z.of_N n ->
     MedicineStock_call (eth_Contract web3 address) (Num k) w = (Ok (stockOf k), w)) ->
  (forall k w, 1 <= k <= Z.of_N n ->
     showStage_call (eth_Contract web3 address) (Num k) w = (Ok (stageOf k), w)) ->
  render (view (snd (load env w st)))
  = Catalog (hd_error accounts)
            (map (fun k => (k, Some (decode (stockOf k)), Some (stageOf k)))
                 (map Z.of_nat (seq 1 (N.to_nat n))))
            form_operations
            (if (error st =? "")%string then None else Some (error st)).
Proof.
  intros Hweb3 Haccounts Hid Hnet Hctr Hstock Hstage.
  destruct (load_pure env w web3 accounts networkId address n w1 w2 w3 stockOf stageOf
              Hweb3 Haccounts Hid Hnet Hctr Hstock Hstage)
    as (med' & medStage' & Hkeys & Hg1 & Hg2 & Hload).
  destruct (Hload st) as (_ & _ & ->).
  unfold render. cbn [loader currentAccount medData medStage error].
  f_equal. rewrite Hkeys. apply map_ext_in. intros k Hin.
  apply in_map_iff in Hin as (j & <- & Hj). apply in_seq in Hj.
  rewrite Hg1, Hg2.
  destruct (Z.leb_spec 1 (Z.of_nat j)), (Z.leb_spec (Z.of_nat j) (Z.of_N n));
    try lia; reflexivity.
Qed.

Lemma catalog_reads_no_submit (t : list (Event World)) :
  forallb is_catalog_read t = true -> existsb is_submit_call t = false.
Proof.
  induction t as [|ev t IH]; simpl; [reflexivity|].
  intros H. apply andb_true_iff in H as [Hev Ht]. rewrite (IH Ht).
  destruct ev; try discriminate Hev; reflexivity.
Qed.

(** X12: the loader only reads.  On every path, whether it completes,
    finds no contract or throws, and however many products it loads, it
    never asks the wallet for its accounts, never estimates and never
    sends a write. *)
Theorem loadBlockchainData_never_submits env w st :
  existsb is_submit_call (trace (snd (load env w st))) = false.
Proof.
  unfold_load.
  destruct (window_web3 env) as [web3|]; cbv beta iota zeta; [|reflexivity].
  destruct (getAccounts web3 w) as [[accounts|e] w1]; cbv beta iota zeta; [|reflexivity].
  destruct (getId web3 w1) as [[networkId|e] w2]; cbv beta iota zeta; [|reflexivity].
  destruct (SupplyChainABI_networks env networkId) as [address|];
    cbv beta iota zeta; [|reflexivity].
  destruct (medicineCtr_call (eth_Contract web3 address) w2) as [[n|e] w3];
    cbv beta iota zeta; [|reflexivity].
  match goal with
  | |- context [load_stock ?sc ?k ?i ?a ?b ?m] =>
      pose proof (load_stock_run sc k i a b m) as Hrun;
      destruct (load_stock sc k i a b m) as [[[med' medStage']|e] [w4 t4 v4]]
  end.
  all: destruct Hrun as ((t & Ht & Hreads) & _); [intros k [] | intros k [] |].
  all: cbn [fst snd trace view] in Ht; cbv beta iota zeta; subst t4.
  all: rewrite !existsb_app, (catalog_reads_no_submit t Hreads); reflexivity.
Qed.

End LoadPaths.

(** ** The page in use *)

Section SessionFacts.

Context {World : Type}.

Implicit Types (env : Env World) (st : ViewState World) (w : World)
  (m : Machine World).

Ltac unfold_machine :=
  cbv beta iota zeta delta
    [bind ret throw try_catch emit set_state await lift defined
     handleSubmit handleSubmit_try handleIdChange world trace view fst snd
     decode Medicine.price Medicine.quantity].

Ltac run_cases :=
  repeat (cbv beta iota zeta;
          match goal with
          | |- context [match ?x with _ => _ end] =>
              lazymatch x with
              | context [match _ with _ => _ end] => fail
              | _ => destruct x eqn:?
              end
          end).

(** What a submission adds to a machine that is already running: it
    appends to the trace, writes under no name but the one it was given,
    and leaves everything but the id field and the error line alone. *)
Lemma handleSubmit_run env st methodName m :
  let m' := snd (handleSubmit env st methodName m) in
  (exists t, trace m' = (trace m ++ t)%list /\
             (sent_methods t = [] \/ sent_methods t = [methodName])) /\
  medData (view m') = medData (view m) /\
  medStage (view m') = medStage (view m) /\
  loader (view m') = loader (view m) /\
  supplyChain (view m') = supplyChain (view m) /\
  currentAccount (view m') = currentAccount (view m).
Proof.
  destruct m as [w0 t0 v0]. unfold_machine. run_cases.
  all: cbn [apply_update medData medStage loader supplyChain currentAccount].
  all: rewrite <- ?app_assoc; cbn [app].
  all: split; [eexists; split; [reflexivity | cbn [sent_methods]; auto] | auto 6].
Qed.

Lemma render_forms st (account : option string)
    (rows : list (Z * option Medicine.t * option string))
    (forms : list string) (errorLine : option string) :
  render st = Catalog account rows forms errorLine ->
  loader st = false /\ forms = form_operations.
Proof.
  unfold render. destruct (loader st); [discriminate|].
  intros H. injection H as _ _ <- _. auto.
Qed.

Lemma render_catalog st :
  loader st = false ->
  render st
  = Catalog (currentAccount st)
            (map (fun key => (key, JsObject.get key (medData st),
                              JsObject.get key (medStage st)))
                 (JsObject.keys (medData st)))
            form_operations
            (if (error st =? "")%string then None else Some (error st)).
Proof. intros Hl. unfold render. now rewrite Hl. Qed.

Lemma user_step_run env m m' :
  user_step env m m' ->
  loader (view m) = false /\
  (exists t, trace m' = (trace m ++ t)%list /\
             Forall (fun name => In name form_operations) (sent_methods t)) /\
  medData (view m') = medData (view m) /\
  medStage (view m') = medStage (view m) /\
  loader (view m') = loader (view m) /\
  supplyChain (view m') = supplyChain (view m) /\
  currentAccount (view m') = currentAccount (view m).
Proof.
  intros Hstep. destruct Hstep as [m text a rows forms e Hrender
                                  | m methodName a rows forms e Hrender Hin].
  - apply render_forms in Hrender as [Hl _]. split; [exact Hl|].
    destruct m as [w0 t0 v0]. unfold_machine.
    split; [exists [EvSetState (setId text)]; split; [reflexivity | constructor]|].
    repeat split.
  - apply render_forms in Hrender as [Hl ->]. split; [exact Hl|].
    destruct (handleSubmit_run env (view m) methodName m)
      as ((t & Ht & Hsent) & Hrest).
    split; [|exact Hrest].
    exists t. split; [exact Ht|].
    destruct Hsent as [-> | ->]; [constructor | constructor; [exact Hin | constructor]].
Qed.

Lemma user_steps_keep_snapshot_frame {env m m'} :
  user_steps env m m' ->
  medData (view m') = medData (view m) /\
  medStage (view m') = medStage (view m) /\
  loader (view m') = loader (view m).
Proof.
  induction 1 as [m | m m' m'' _ IH Hstep]; [repeat split|].
  apply user_step_run in Hstep as (_ & _ & H1 & H2 & H3 & _).
  destruct IH as (I1 & I2 & I3). rewrite H1, H2, H3. auto.
Qed.

(** X10: nothing the user does on the page changes or refreshes what was
    loaded: after any number of edits of the id field and submissions,
    accepted or not, [medData] and [medStage] are what they were, and so
    are the account, the contract and the loading flag. *)
Theorem user_steps_keep_snapshot env m m' :
  user_steps env m m' ->
  medData (view m') = medData (view m) /\
  medStage (view m') = medStage (view m) /\
  loader (view m') = loader (view m) /\
  supplyChain (view m') = supplyChain (view m) /\
  currentAccount (view m') = currentAccount (view m).
Proof.
  induction 1 as [m | m m' m'' _ IH Hstep]; [repeat split|].
  apply user_step_run in Hstep as (_ & _ & H1 & H2 & H3 & H4 & H5).
  destruct IH as (I1 & I2 & I3 & I4 & I5).
  rewrite H1, H2, H3, H4, H5. auto.
Qed.

(** X11: from the mount on, every write that the page sends to the ledger
    names one of the four stage methods of its forms: the load sends
    none, and a form submits only the name written into it. *)
Theorem session_writes_are_form_operations env w m :
  user_steps env (mounted env w) m ->
  Forall (fun name => In name form_operations) (sent_methods (trace m)).
Proof.
  intros Hsteps. remember (mounted env w) as m0 eqn:Hm0.
  induction Hsteps as [m0 | m0 m' m'' _ IH Hstep].
  - subst m0. unfold mounted.
    pose proof (load_run env w initial_state) as Hrun. cbv zeta in Hrun.
    destruct Hrun as [-> _]. constructor.
  - apply user_step_run in Hstep as (_ & (t & -> & Hsent) & _).
    rewrite sent_methods_app. apply Forall_app. auto.
Qed.

(** X16: whenever the page of a mounted component shows the catalog, now
    or after any number of steps of the user, the contract is set, so a
    submission finds its method table, and [medData] and [medStage] have
    the same keys, 1 to [n] in order: every row has its stage. *)
Theorem session_catalog_invariant env w m :
  user_steps env (mounted env w) m ->
  loader (view m) = false ->
  (exists contract, supplyChain (view m) = Some contract) /\
  exists n : nat,
    JsObject.keys (medData (view m)) = map Z.of_nat (seq 1 n) /\
    JsObject.keys (medStage (view m)) = map Z.of_nat (seq 1 n).
Proof.
  intros Hsteps. remember (mounted env w) as m0 eqn:Hm0.
  induction Hsteps as [m0 | m0 m' m'' _ IH Hstep].
  - subst m0. unfold mounted. intros Hl.
    pose proof (load_run env w initial_state) as Hrun. cbv zeta in Hrun.
    destruct Hrun as [_ Hrun].
    destruct (fst (load env w initial_state)).
    + destruct Hrun as [(Hl' & _) | (_ & Hc & _ & Hk)]; [congruence | auto].
    + destruct Hrun as (_ & _ & Hl' & _). congruence.
  - apply user_step_run in Hstep as (_ & _ & H1 & H2 & H3 & H4 & _).
    rewrite H1, H2, H3, H4. exact (IH Hm0).
Qed.

End SessionFacts.

(** ** The id field and the price, read back *)

Section ReadBack.

Import BN Web3Utils.

Lemma is_digit_not_white_space (c : ascii) :
  is_digit c = true -> is_white_space c = false.
Proof.
  unfold is_digit, is_white_space. intros H.
  apply andb_true_iff in H as [H1 H2]. apply N.leb_le in H1, H2.
  destruct (N.leb_spec 9 (N_of_ascii c)), (N.leb_spec (N_of_ascii c) 13),
           (N.eqb_spec (N_of_ascii c) 32), (N.eqb_spec (N_of_ascii c) 160);
    simpl; try reflexivity; lia.
Qed.

Lemma is_digit_not_plus (c : ascii) : is_digit c = true -> Ascii.eqb c "+"%char = false.
Proof.
  intros H. destruct (Ascii.eqb_spec c "+"%char) as [->|]; [discriminate H | reflexivity].
Qed.

Lemma digit_run_append (s rest : string) :
  all_digits s = true -> digit_run (s ++ rest) = s ++ digit_run rest.
Proof.
  induction s as [|c s IH]; simpl; [reflexivity|].
  intros H. apply andb_true_iff in H as [Hc Hs]. now rewrite Hc, (IH Hs).
Qed.

(** X13: the id of a product as the table shows it, the decimal digits of
    a number below [2^53], is parsed back to that number; text that
    follows the digits and does not start with a digit makes no
    difference. *)
Theorem parseInt_uint_string (n : N) (rest : string) :
  Z.of_N n < 2 ^ 53 ->
  digit_run rest = "" ->
  parseInt (uint_string n ++ rest) = Num (Z.of_N n).
Proof.
  intros Hsmall Hrest.
  destruct (toString_nonneg (Z.of_N n) (N2Z.is_nonneg n)) as (Hd & Hne & Hv).
  unfold parseInt, uint_string.
  destruct (toString (Z.of_N n)) as [|c s] eqn:Hs; [contradiction|].
  pose proof Hd as Hd'. simpl in Hd'. apply andb_true_iff in Hd' as [Hc _].
  cbn [append trim_start]. rewrite (is_digit_not_white_space c Hc).
  cbn [starts_with tail]. rewrite (is_digit_not_minus c Hc), (is_digit_not_plus c Hc).
  cbn [orb]. change (String c (s ++ rest)) with (String c s ++ rest).
  rewrite (digit_run_append _ rest Hd), Hrest, append_nil_r.
  cbn [String.eqb]. rewrite Hv, Z.mul_1_l.
  unfold round_to_double.
  destruct (Z.ltb_spec (Z.abs (Z.of_N n)) (2 ^ 53)); [reflexivity | lia].
Qed.

Lemma parseInt_uint_string_witness : parseInt "42 units" = Num 42.
Proof. exact (parseInt_uint_string 42 " units" eq_refl eq_refl). Defined.



Lemma uint_string_injective (a b : N) : uint_string a = uint_string b -> a = b.
Proof.
  intros H.
  destruct (toString_nonneg (Z.of_N a) (N2Z.is_nonneg a)) as (_ & _ & Ha).
  destruct (toString_nonneg (Z.of_N b) (N2Z.is_nonneg b)) as (_ & _ & Hb).
  unfold uint_string in H. rewrite H in Ha. lia.
Qed.

(** X15: the price column loses nothing: two prices in wei that are
    shown as the same text in ether are the same price. *)
Theorem price_display_injective (a b : N) :
  fromWei (uint_string a) = fromWei (uint_string b) -> a = b.
Proof.
  intros H.
  destruct (toWei_fromWei_uint a) as (ea & Hfa & Hta).
  destruct (toWei_fromWei_uint b) as (eb & Hfb & Htb).
  rewrite Hfa, Hfb in H. injection H as ->.
  rewrite Hta in Htb. injection Htb as Heq.
  now apply uint_string_injective.
Qed.

Lemma price_display_injective_witness : (1500000000000000000 = 1500000000000000000)%N.
Proof.
  exact (price_display_injective 1500000000000000000 1500000000000000000 eq_refl).
Defined.

End ReadBack.

(** ** Runs on the two ledgers *)

Section MoreRuns.

(** No product 9: the read reverts. *)
Lemma handleSubmit_read_failure_witness :
  let m := submit Fixed.env tt (Fixed.page "9") "startShipping" in
  filter is_ledger_call (trace m) = [EvMedicineStock (Num 9)] /\
  world m = tt /\
  error (view m) = "Error in startShipping: execution reverted" /\
  id (view m) = "9".
Proof.
  exact (handleSubmit_read_failure Fixed.env tt (Fixed.page "9") "startShipping"
           Fixed.contract Fixed.stage_method (Error "execution reverted") tt
           eq_refl eq_refl eq_refl eq_refl).
Defined.

(** No wallet in the browser. *)
Lemma handleSubmit_wallet_failure_witness :
  let m := submit Fixed.env tt (Fixed.page "1") "startShipping" in
  filter is_ledger_call (trace m) = [EvMedicineStock (Num 1)] /\
  error (view m)
  = "Error in startShipping: Cannot read properties of undefined (reading 'request')".
Proof.
  exact (handleSubmit_wallet_failure Fixed.env tt (Fixed.page "1") "startShipping"
           Fixed.contract Fixed.stage_method (Fixed.stockOf 1) tt
           eq_refl eq_refl eq_refl eq_refl).
Defined.

Lemma handleSubmit_uses_estimate_witness :
  let m := submit (Demo.env true) Demo.stock (Demo.page true "2") "startDistribution" in
  filter is_write (trace m)
  = [EvSend "startDistribution" (Num 2)
       {| from := Some "0xA11CE"; gas := 21000;
          value := "1500000000000000000000000" |}] /\
  world m = Demo.stock /\
  id (view m) = "" /\
  error (view m) = "" /\
  user_messages (trace m) = ["Successfully called startDistribution with result: 0xfeed"].
Proof.
  exact (handleSubmit_uses_estimate (Demo.env true) Demo.stock (Demo.page true "2")
           "startDistribution" (Demo.contract true) (Demo.stage_method true)
           Demo.insulin Demo.ethereum ["0xA11CE"] 21000
           Demo.stock Demo.stock Demo.stock
           eq_refl eq_refl eq_refl eq_refl eq_refl eq_refl eq_refl).
Defined.

(** The provider cannot name the network. *)
Lemma loadBlockchainData_failure_witness :
  let m := snd (load Fixed.env_offline tt (Fixed.page "")) in
  medData (view m) = JsObject.empty /\
  medStage (view m) = JsObject.empty /\
  user_messages (trace m) = [] /\
  render (view m) = Loading.
Proof.
  exact (loadBlockchainData_failure Fixed.env_offline tt (Fixed.page "")
           (Error "network unavailable") eq_refl).
Defined.

Lemma loadBlockchainData_completed_witness :
  let m := snd (load Fixed.env tt initial_state) in
  (render (view m) = Loading /\
   medData (view m) = medData (@initial_state Fixed.World) /\
   medStage (view m) = medStage (@initial_state Fixed.World) /\
   user_messages (trace m) = [not_deployed_msg]) \/
  (loader (view m) = false /\
   (exists contract, supplyChain (view m) = Some contract) /\
   user_messages (trace m) = [] /\
   exists n : nat,
     JsObject.keys (medData (view m)) = map Z.of_nat (seq 1 n) /\
     JsObject.keys (medStage (view m)) = map Z.of_nat (seq 1 n)).
Proof.
  exact (loadBlockchainData_completed Fixed.env tt initial_state eq_refl).
Defined.

Lemma loadBlockchainData_without_web3_witness :
  fst (load Fixed.env_bare tt initial_state) = Throw (Error (undefined_msg "eth")) /\
  trace (snd (load Fixed.env_bare tt initial_state)) = [EvSetState (setLoader true)].
Proof.
  destruct (loadBlockchainData_without_web3 Fixed.env_bare tt initial_state eq_refl)
    as [-> _].
  split; reflexivity.
Defined.

Lemma fixed_reads {A} (answer : Z -> A) (k : Z) (w : Fixed.World) :
  1 <= k <= Z.of_N 2 -> Fixed.by_id answer (Num k) w = (Ok (answer k), w).
Proof.
  intros Hk. unfold Fixed.by_id.
  destruct (Z.leb_spec 1 k), (Z.leb_spec k 2); simpl; [reflexivity | lia | lia | lia].
Qed.

Lemma loadBlockchainData_contents_witness :
  let v := view (snd (load Fixed.env tt initial_state)) in
  JsObject.get 2 (medData v) = Some (decode (Fixed.stockOf 2)) /\
  JsObject.get 2 (medStage v) = Some "Medicine Ordered".
Proof.
  exact (loadBlockchainData_contents Fixed.env tt initial_state Fixed.web3 ["0xB0B"] 1
           "0xC0FFEE" 2 tt tt tt Fixed.stockOf Fixed.stageOf
           eq_refl eq_refl eq_refl eq_refl eq_refl
           (fixed_reads Fixed.stockOf) (fixed_reads Fixed.stageOf) 2).
Defined.

Lemma render_after_load_witness :
  render (view (snd (load Fixed.env tt initial_state)))
  = Catalog (Some "0xB0B")
            [(1, Some (decode (Fixed.stockOf 1)), Some "Medicine Ordered");
             (2, Some (decode (Fixed.stockOf 2)), Some "Medicine Ordered")]
            form_operations None.
Proof.
  exact (render_after_load Fixed.env tt initial_state Fixed.web3 ["0xB0B"] 1
           "0xC0FFEE" 2 tt tt tt Fixed.stockOf Fixed.stageOf
           eq_refl eq_refl eq_refl eq_refl eq_refl
           (fixed_reads Fixed.stockOf) (fixed_reads Fixed.stageOf)).
Defined.

(** The user types an id and submits the first form. *)
Lemma mounted_shows_catalog : loader (view (mounted Fixed.env tt)) = false.
Proof. vm_compute. reflexivity. Qed.

Lemma two_steps : user_steps Fixed.env (mounted Fixed.env tt) Fixed.after_submit.
Proof.
  assert (Htyped : loader (view Fixed.after_typing) = false)
    by exact mounted_shows_catalog.
  apply steps_more with (m' := Fixed.after_typing).
  - apply steps_more with (m' := mounted Fixed.env tt); [apply steps_done|].
    exact (type_id Fixed.env (mounted Fixed.env tt) "1" _ _ _ _
             (render_catalog _ mounted_shows_catalog)).
  - exact (submit_form Fixed.env Fixed.after_typing "startManufacturing" _ _ _ _
             (render_catalog _ Htyped) (or_introl eq_refl)).
Qed.

Lemma user_steps_keep_snapshot_witness :
  JsObject.keys (medData (view Fixed.after_submit)) = [1; 2].
Proof.
  rewrite (proj1 (user_steps_keep_snapshot Fixed.env _ _ two_steps)).
  vm_compute. reflexivity.
Defined.

Lemma demo_shows_catalog :
  loader (view (mounted (Demo.env true) Demo.stock)) = false.
Proof. vm_compute. reflexivity. Qed.

Lemma demo_two_steps :
  user_steps (Demo.env true) (mounted (Demo.env true) Demo.stock)
    DemoSession.after_submit.
Proof.
  assert (Htyped : loader (view DemoSession.after_typing) = false)
    by exact demo_shows_catalog.
  apply steps_more with (m' := DemoSession.after_typing).
  - apply steps_more with (m' := mounted (Demo.env true) Demo.stock);
      [apply steps_done|].
    exact (type_id (Demo.env true) (mounted (Demo.env true) Demo.stock) "2" _ _ _ _
             (render_catalog _ demo_shows_catalog)).
  - exact (submit_form (Demo.env true) DemoSession.after_typing "startShipping" _ _ _ _
             (render_catalog _ Htyped) (or_intror (or_introl eq_refl))).
Qed.

(** A session that sends a write: the second form, for the second
    product. *)
Lemma session_writes_are_form_operations_witness :
  sent_methods (trace DemoSession.after_submit) = ["startShipping"] /\
  Forall (fun name => In name form_operations)
    (sent_methods (trace DemoSession.after_submit)).
Proof.
  split; [vm_compute; reflexivity|].
  exact (session_writes_are_form_operations (Demo.env true) Demo.stock _ demo_two_steps).
Defined.

Lemma session_catalog_invariant_witness :
  (exists contract, supplyChain (view Fixed.after_submit) = Some contract) /\
  exists n : nat,
    JsObject.keys (medData (view Fixed.after_submit)) = map Z.of_nat (seq 1 n) /\
    JsObject.keys (medStage (view Fixed.after_submit)) = map Z.of_nat (seq 1 n).
Proof.
  apply (session_catalog_invariant Fixed.env tt _ two_steps).
  rewrite (proj2 (proj2 (user_steps_keep_snapshot_frame two_steps))).
  exact mounted_shows_catalog.
Defined.

End MoreRuns.
